(** * colour-maya: Autodesk Maya plotting helpers ([plots.py])

    A shallow embedding of [src/colour-maya/plots.py].

    The module is glue between three collaborators that live outside the
    repository: the Maya host ([maya.cmds], [maya.OpenMaya]), the colour
    library ([colour.models], [colour.colorimetry]) and numpy.  The host is
    a stateful object the code only talks to through calls, so it is a
    parameter here: an arbitrary transition function over an arbitrary world,
    which answers every call with a value or with an exception.  The
    functions of [plots.py] are written in a monad that threads the world,
    propagates exceptions and records every host call with its answer. *)

From Stdlib Require Import Floats.PrimFloat.
From stdpp Require Import gmap strings list fin_maps.

Set Default Proof Using "Type".
#[local] Set Warnings "-register-all,-inexact-float".

(** ** Python values and exceptions *)

(** The Python values the module hands to [maya.cmds]: numbers, booleans,
    strings, and the tuples and lists built from them. *)
Inductive value :=
| VNone
| VBool (b : bool)
| VInt (z : Z)
| VFloat (f : float)
| VStr (s : string)
| VTuple (l : list value)
| VList (l : list value).

(** Exception classes; [ModuleNotFoundError] derives from [ImportError]. *)
Inductive exc_class :=
| ImportError
| ModuleNotFoundError
| IndexError
| TypeError
| AttributeError
| RuntimeError
| ValueError.

Record exc := Exc { exc_cls : exc_class; exc_msg : string }.

(** [issubclass sub sup]: what an [except sup] clause matches. *)
Definition issubclass (sub sup : exc_class) : bool :=
  match sub, sup with
  | ImportError, ImportError
  | ModuleNotFoundError, ImportError
  | ModuleNotFoundError, ModuleNotFoundError
  | IndexError, IndexError
  | TypeError, TypeError
  | AttributeError, AttributeError
  | RuntimeError, RuntimeError
  | ValueError, ValueError => true
  | _, _ => false
  end.

(** A pure computation that may raise. *)
Definition result (A : Type) : Type := exc + A.

#[export] Instance result_ret : MRet result := λ A a, inr a.
#[export] Instance result_bind : MBind result := λ A B f r,
  match r with
  | inl e => inl e
  | inr a => f a
  end.

(** [xs[i]] on a Python list. *)
Definition getitem {A} (xs : list A) (i : nat) : result A :=
  match xs !! i with
  | Some x => inr x
  | None => inl (Exc IndexError "list index out of range")
  end.

(** [t[i]] on a Python tuple. *)
Definition tuple_getitem {A} (t : list A) (i : nat) : result A :=
  match t !! i with
  | Some x => inr x
  | None => inl (Exc IndexError "tuple index out of range")
  end.

(** A Python dict: its items in the order in which the keys were first
    written, every key once. *)
Definition pydict (V : Type) : Type := list (string * V).

(** [d[k] = v]: a key that is there keeps its place and takes the new
    value, a new key goes last. *)
Fixpoint setitem {V} (k : string) (v : V) (d : pydict V) : pydict V :=
  match d with
  | [] => [(k, v)]
  | (k1, v1) :: d1 =>
      if decide (k1 = k) then (k1, v) :: d1 else (k1, v1) :: setitem k v d1
  end.

(** A dict display [{k1: v1, k2: v2, ...}]: the entries are written from
    left to right. *)
Definition dict {V} (entries : list (string * V)) : pydict V :=
  fold_left (λ d kv, setitem kv.1 kv.2 d) entries [].

(** [d.items()], [d.keys()] and [d.get(k)] *)
Definition items {V} (d : pydict V) : list (string * V) := d.

Definition keys {V} (d : pydict V) : list string := d.*1.

Fixpoint get {V} (d : pydict V) (k : string) : option V :=
  match d with
  | [] => None
  | (k1, v1) :: d1 => if decide (k1 = k) then Some v1 else get d1 k
  end.

(** ['{0}.attr'.format(node)] *)
Definition fmt_attr (node attr : string) : string := node +:+ "." +:+ attr.

(** ** numpy

    Only the plumbing the module uses: an array is its shape and its
    elements in row-major order. *)
Record ndarray := NdArray { shape : list nat; data : list float }.

(** [np.array(t)] for a flat sequence of numbers. *)
Definition np_array (t : list float) : ndarray := NdArray [length t] t.

(** [np.ravel(a)]: the same elements as a one-dimensional array. *)
Definition np_ravel (a : ndarray) : ndarray := NdArray [length (data a)] (data a).

(** What iterating over an array yields: its numbers when it has one
    dimension, its sub-arrays along the first axis when it has more. *)
Inductive item :=
| Number (x : float)
| SubArray (a : ndarray).

Coercion Number : float >-> item.
Bind Scope float_scope with item.

(** [count] consecutive rows of [width] elements. *)
Fixpoint rows {A} (count width : nat) (l : list A) : list (list A) :=
  match count with
  | 0 => []
  | S count1 => take width l :: rows count1 width (drop width l)
  end.

(** [tuple(a)] *)
Definition tuple (a : ndarray) : result (list item) :=
  match shape a with
  | [] => inl (Exc TypeError "iteration over a 0-d array")
  | [_] => inr (Number <$> data a)
  | n :: inner =>
      inr ((λ row, SubArray (NdArray inner row))
             <$> rows n (foldr Nat.mul 1 inner) (data a))
  end.

(** ** The colour library's objects *)

Definition xy : Type := float * float.

(** [colour.models.RGB_Colourspace]. *)
Record RGB_Colourspace := {
  name : string;
  primaries : ndarray;
  whitepoint : xy;
  to_XYZ : ndarray;
  from_XYZ : ndarray;
  transfer_function : float → float;
  inverse_transfer_function : float → float
}.

(** ** The host's objects *)

(** Host objects with identity ([MSelectionList], [MDagPath], the arrays,
    [MFnMesh], [MItMeshVertex]) are references into the host. *)
Definition handle : Type := nat.

(** [OpenMaya.MPoint] is a value: four doubles; [p[0]], [p[1]] and [p[2]]
    are [mp_x p], [mp_y p] and [mp_z p]. *)
Record MPoint := { mp_x : float; mp_y : float; mp_z : float; mp_w : float }.

(** [OpenMaya.MSpace]. *)
Inductive MSpace := kWorld | kObject.

(** The [maya.cmds] commands the module issues. *)
Inductive cmd :=
| listRelatives | setAttr | polyCube | makeIdentity | xform | rename
| createNode | select | delete | nurbsToPolygonsPref | textCurves
| planarSrf | polyUnite | polyColorPerVertex | parent.

(** One call into the host: a [cmds] command with its positional and keyword
    arguments, or a constructor or method of [OpenMaya]. *)
Inductive call :=
| cmds (c : cmd) (args : list value) (kwargs : list (string * value))
| MSelectionList
| MSelectionList_add (selection_list : handle) (node : string)
| MDagPath
| MSelectionList_getDagPath (selection_list : handle) (index : nat) (dag_path : handle)
| MPoint_new (x y z : item)
| MColorArray
| MIntArray
| MPointArray
| MFnMesh (dag_path : handle)
| MFnMesh_getPoints (fn_mesh point_array : handle) (space : MSpace)
| MPointArray_length (point_array : handle)
| MPointArray_getitem (point_array : handle) (i : nat)
| MColorArray_append (colour_array : handle) (r g b : float)
| MIntArray_append (int_array : handle) (i : nat)
| MFnMesh_setVertexColors (fn_mesh colour_array index_array : handle)
| MItMeshVertex (dag_path : handle)
| MItMeshVertex_isDone (it : handle)
| MItMeshVertex_position (it : handle) (space : MSpace)
| MItMeshVertex_setPosition (it : handle) (point : MPoint)
| MItMeshVertex_next (it : handle).

(** What a [cmds] command answers, as far as the module looks at it. *)
Definition cmd_resp (c : cmd) : Type :=
  match c with
  | listRelatives => option (list string)
  | polyCube | textCurves | planarSrf | polyUnite => list string
  | rename | createNode => string
  | _ => unit
  end.

Definition resp (c : call) : Type :=
  match c with
  | cmds c _ _ => cmd_resp c
  | MSelectionList | MDagPath | MColorArray | MIntArray | MPointArray
  | MFnMesh _ | MItMeshVertex _ => handle
  | MPoint_new _ _ _ | MPointArray_getitem _ _ | MItMeshVertex_position _ _ => MPoint
  | MPointArray_length _ => nat
  | MItMeshVertex_isDone _ => bool
  | _ => unit
  end.

(** A host call together with what the host answered. *)
Record event := Ev { ev_call : call; ev_resp : exc + resp ev_call }.

(** The exception a call ended with, if it did. *)
Definition ev_failure (ev : event) : option exc :=
  match ev_resp ev with
  | inl e => Some e
  | inr _ => None
  end.

(** ** The monad of host programs *)

(** How a run ends: with a value, with an exception, or still looping when
    the fuel of a [while] is spent. *)
Inductive outcome (A : Type) :=
| Returned (a : A)
| Raised (e : exc)
| OutOfFuel.
Arguments Returned {A} a.
Arguments Raised {A} e.
Arguments OutOfFuel {A}.

Section Host.
Context {World : Type}.

(** The host: every call is answered, in the current world, by a value or
    an exception, and leaves a new world. *)
Definition Host : Type := ∀ c : call, World → (exc + resp c) * World.

Definition M (A : Type) : Type := World → outcome A * World * list event.

Definition M_ret {A} (a : A) : M A := λ w, (Returned a, w, []).

Definition M_bind {A B} (f : A → M B) (m : M A) : M B := λ w,
  match m w with
  | (Returned a, w1, t1) =>
      match f a w1 with
      | (o, w2, t2) => (o, w2, t1 ++ t2)
      end
  | (Raised e, w1, t1) => (Raised e, w1, t1)
  | (OutOfFuel, w1, t1) => (OutOfFuel, w1, t1)
  end.

#[export] Instance M_mret : MRet M := @M_ret.
#[export] Instance M_mbind : MBind M := @M_bind.

(** A pure step that may raise, inside a host program. *)
Definition lift {A} (r : result A) : M A := λ w,
  match r with
  | inl e => (Raised e, w, [])
  | inr a => (Returned a, w, [])
  end.

Definition out_of_fuel {A} : M A := λ w, (OutOfFuel, w, []).

Variable host : Host.

(** One call into the host: the host's exception, if any, is raised as it
    is; the call and its answer are recorded. *)
Definition host_call (c : call) : M (resp c) := λ w,
  match host c w with
  | (r, w1) =>
      (match r with
       | inl e => Raised e
       | inr v => Returned v
       end, w1, [Ev c r])
  end.

(** [for x in xs: body(x)] *)
Fixpoint for_each {A} (xs : list A) (body : A → M unit) : M unit :=
  match xs with
  | [] => mret ()
  | x :: xs1 => body x;; for_each xs1 body
  end.

(** [[f(x) for x in xs]] *)
Fixpoint comprehension {A B} (xs : list A) (f : A → M B) : M (list B) :=
  match xs with
  | [] => mret []
  | x :: xs1 => y ← f x; ys ← comprehension xs1 f; mret (y :: ys)
  end.

(** [while cond(): body()], the condition evaluated at most [fuel] times. *)
Fixpoint while (fuel : nat) (cond : M bool) (body : M unit) : M unit :=
  match fuel with
  | 0 => out_of_fuel
  | S fuel1 =>
      cond ≫= λ b : bool,
        if b then body;; while fuel1 cond body else mret ()
  end.

End Host.

(** ** The functions of [plots.py] *)

Section Plots.
Context {World : Type}.

(** [maya.cmds] and [maya.OpenMaya], as bound at module load. *)
Variable host : @Host World.

(** [colour.models.RGB_to_XYZ], [colour.models.XYZ_to_Lab] and
    [colour.colorimetry.ILLUMINANTS]: functions of their arguments, which
    may raise. *)
Variable RGB_to_XYZ :
  ndarray → xy → option xy → ndarray → string → (float → float) → result ndarray.
Variable XYZ_to_Lab : ndarray → xy → result ndarray.
Variable ILLUMINANTS : gmap string (gmap string xy).

Abbreviation M := (@M World).
Notation "'OpenMaya' c" := (host_call host c) (at level 10, c at level 9, only parsing).

(** [def get_dag_path(node)] *)
Definition get_dag_path (node : string) : M handle :=
  selection_list ← OpenMaya MSelectionList;
  OpenMaya (MSelectionList_add selection_list node);;
  dag_path ← OpenMaya MDagPath;
  OpenMaya (MSelectionList_getDagPath selection_list 0 dag_path);;
  mret dag_path.

(** [def get_mpoint(point)] *)
Definition get_mpoint (point : list item) : M MPoint :=
  x ← lift (tuple_getitem point 0);
  y ← lift (tuple_getitem point 1);
  z ← lift (tuple_getitem point 2);
  OpenMaya (MPoint_new x y z).

(** [def get_shapes(object, full_path=False, no_intermediate=True)] *)
Definition get_shapes (object : string) (full_path no_intermediate : bool) : M (list string) :=
  let object_shapes := [] in
  shapes ← host_call host (cmds listRelatives [VStr object]
                             [("fullPath", VBool full_path);
                              ("shapes", VBool true);
                              ("noIntermediate", VBool no_intermediate)]);
  let object_shapes :=
    match shapes with
    | Some shapes => shapes
    | None => object_shapes
    end in
  mret object_shapes.

(** [def set_attributes(attributes)] *)
Definition set_attributes (attributes : pydict value) : M bool :=
  for_each (items attributes) (λ '(attribute, value),
    host_call host (cmds setAttr [VStr attribute; value] []));;
  mret true.

(** [ILLUMINANTS.get(observer).get(illuminant)]: the first [get] answers
    [None] for a missing key, on which the second [get] is an
    [AttributeError]; the second answers [None] for a missing key. *)
Definition ILLUMINANTS_get_get (observer illuminant : string) : result (option xy) :=
  match ILLUMINANTS !! observer with
  | Some illuminants => inr (illuminants !! illuminant)
  | None => inl (Exc AttributeError "'NoneType' object has no attribute 'get'")
  end.

(** [def RGB_to_Lab(RGB, colourspace)] *)
Definition RGB_to_Lab (RGB : list float) (colourspace : RGB_Colourspace) : result ndarray :=
  illuminant ← ILLUMINANTS_get_get "CIE 1931 2 Degree Standard Observer" "E";
  XYZ ← RGB_to_XYZ (np_array RGB)
                   (whitepoint colourspace)
                   illuminant
                   (to_XYZ colourspace)
                   "Bradford"
                   (inverse_transfer_function colourspace);
  XYZ_to_Lab XYZ (whitepoint colourspace).

(** [def RGB_identity_cube(name, density=20)] *)
Definition RGB_identity_cube (name : string) (density : Z) : M string :=
  cubes ← host_call host (cmds polyCube []
                            [("w", VInt 1); ("h", VInt 1); ("d", VInt 1);
                             ("sx", VInt density); ("sy", VInt density);
                             ("sz", VInt density); ("ch", VBool false)]);
  cube ← lift (getitem cubes 0);
  set_attributes (dict [(fmt_attr cube "translateX", VFloat 0.5);
                        (fmt_attr cube "translateY", VFloat 0.5);
                        (fmt_attr cube "translateZ", VFloat 0.5)]);;
  host_call host (cmds setAttr [VStr (fmt_attr cube "displayColors"); VBool true] []);;
  vertex_colour_array ← OpenMaya MColorArray;
  vertex_index_array ← OpenMaya MIntArray;
  point_array ← OpenMaya MPointArray;
  shapes ← get_shapes cube false true;
  shape ← lift (getitem shapes 0);
  dag_path ← get_dag_path shape;
  fn_mesh ← OpenMaya (MFnMesh dag_path);
  OpenMaya (MFnMesh_getPoints fn_mesh point_array kWorld);;
  length ← OpenMaya (MPointArray_length point_array);
  for_each (seq 0 length) (λ i,
    p0 ← OpenMaya (MPointArray_getitem point_array i);
    p1 ← OpenMaya (MPointArray_getitem point_array i);
    p2 ← OpenMaya (MPointArray_getitem point_array i);
    OpenMaya (MColorArray_append vertex_colour_array (mp_x p0) (mp_y p1) (mp_z p2));;
    OpenMaya (MIntArray_append vertex_index_array i));;
  OpenMaya (MFnMesh_setVertexColors fn_mesh vertex_colour_array vertex_index_array);;
  host_call host (cmds makeIdentity [VStr cube]
                    [("apply", VBool true); ("t", VBool true);
                     ("r", VBool true); ("s", VBool true)]);;
  host_call host (cmds xform [VStr cube]
                    [("a", VBool true);
                     ("rotatePivot", VTuple [VInt 0; VInt 0; VInt 0]);
                     ("scalePivot", VTuple [VInt 0; VInt 0; VInt 0])]);;
  host_call host (cmds rename [VStr cube; VStr name] []).

(** [def Lab_colourspace_cube(colourspace, density=20)]; [fuel] bounds the
    evaluations of the loop's condition. *)
Definition Lab_colourspace_cube (fuel : nat) (colourspace : RGB_Colourspace) (density : Z)
  : M string :=
  cube ← RGB_identity_cube (name colourspace) density;
  dag_path ← get_dag_path cube;
  it_mesh_vertex ← OpenMaya (MItMeshVertex dag_path);
  while fuel
    (done ← OpenMaya (MItMeshVertex_isDone it_mesh_vertex); mret (negb done))
    (position ← OpenMaya (MItMeshVertex_position it_mesh_vertex kObject);
     Lab ← lift (RGB_to_Lab [mp_x position; mp_y position; mp_z position] colourspace);
     coordinates ← lift (tuple (np_ravel Lab));
     point ← get_mpoint coordinates;
     OpenMaya (MItMeshVertex_setPosition it_mesh_vertex point);;
     OpenMaya (MItMeshVertex_next it_mesh_vertex));;
  set_attributes (dict [(fmt_attr cube "rotateX", VInt 180);
                        (fmt_attr cube "rotateZ", VInt 90)]);;
  host_call host (cmds makeIdentity [VStr cube]
                    [("apply", VBool true); ("t", VBool true);
                     ("r", VBool true); ("s", VBool true)]);;
  mret cube.

(** [for x in xs] when [xs] may be [None]. *)
Definition iter {A} (xs : option (list A)) : result (list A) :=
  match xs with
  | Some xs => inr xs
  | None => inl (Exc TypeError "'NoneType' object is not iterable")
  end.

(** A list of node names, or [None], as an argument of a command. *)
Definition names_value (xs : option (list string)) : value :=
  match xs with
  | Some xs => VList (VStr <$> xs)
  | None => VNone
  end.

(** The labels of the four half-axes: text, position, node name. *)
Definition axis_labels : list (string * (Z * Z) * string) :=
  [("-a*", (-350, 0), "minus_a");
   ("+a*", (350, 0), "plus_a");
   ("-b*", (0, 350), "minus_b");
   ("+b*", (0, -350), "plus_b")]%Z.

(** [def Lab_coordinates_system_representation()] *)
Definition Lab_coordinates_system_representation : M bool :=
  group ← host_call host (cmds createNode [VStr "transform"] []);
  cubes ← host_call host (cmds polyCube []
                            [("w", VInt 600); ("h", VInt 100); ("d", VInt 600);
                             ("sx", VInt 12); ("sy", VInt 2); ("sz", VInt 12);
                             ("ch", VBool false)]);
  cube ← lift (getitem cubes 0);
  set_attributes (dict [(fmt_attr cube "translateY", VInt 50);
                        (fmt_attr cube "overrideEnabled", VBool true);
                        (fmt_attr cube "overrideDisplayType", VInt 2);
                        (fmt_attr cube "overrideShading", VBool false)]);;
  host_call host (cmds makeIdentity [VStr cube]
                    [("apply", VBool true); ("t", VBool true);
                     ("r", VBool true); ("s", VBool true)]);;
  host_call host (cmds select [VList [VStr (fmt_attr cube "f[0:167]");
                                      VStr (fmt_attr cube "f[336:359]")]] []);;
  host_call host (cmds delete [] []);;
  host_call host (cmds nurbsToPolygonsPref []
                    [("polyType", VInt 1); ("chordHeightRatio", VFloat 0.975)]);;
  for_each axis_labels (λ '(label, position, name),
    texts ← host_call host (cmds textCurves []
                              [("f", VStr "Arial Black Bold"); ("t", VStr label)]);
    text ← lift (getitem texts 0);
    curves ← host_call host (cmds listRelatives [VStr text] []);
    xs ← lift (iter curves);
    surfaces ← comprehension xs (λ x,
      host_call host (cmds planarSrf [VStr x]
                        [("ch", VBool false); ("o", VBool true); ("po", VInt 1)]));
    meshes ← host_call host (cmds polyUnite ((λ s, VList (VStr <$> s)) <$> surfaces)
                               [("ch", VBool false)]);
    mesh ← lift (getitem meshes 0);
    host_call host (cmds xform [VStr mesh] [("cp", VBool true)]);;
    host_call host (cmds xform [VStr mesh]
                      [("translation", VTuple [VInt 0; VInt 0; VInt 0]);
                       ("absolute", VBool true)]);;
    host_call host (cmds makeIdentity [VStr cube]
                      [("apply", VBool true); ("t", VBool true);
                       ("r", VBool true); ("s", VBool true)]);;
    host_call host (cmds select [VStr mesh] []);;
    host_call host (cmds polyColorPerVertex []
                      [("rgb", VTuple [VInt 0; VInt 0; VInt 0]); ("cdo", VBool true)]);;
    set_attributes (dict [(fmt_attr mesh "translateX", VInt position.1);
                          (fmt_attr mesh "translateZ", VInt position.2);
                          (fmt_attr mesh "rotateX", VInt (-90));
                          (fmt_attr mesh "scaleX", VInt 50);
                          (fmt_attr mesh "scaleY", VInt 50);
                          (fmt_attr mesh "scaleY", VInt 50);
                          (fmt_attr mesh "overrideEnabled", VBool true);
                          (fmt_attr mesh "overrideDisplayType", VInt 2)]);;
    parents ← host_call host (cmds listRelatives [names_value curves]
                                [("parent", VBool true)]);
    host_call host (cmds delete [names_value parents] []);;
    host_call host (cmds makeIdentity [VStr mesh]
                      [("apply", VBool true); ("t", VBool true);
                       ("r", VBool true); ("s", VBool true)]);;
    mesh ← host_call host (cmds rename [VStr mesh; VStr name] []);
    host_call host (cmds parent [VStr mesh; VStr group] []);;
    mret ());;
  cube ← host_call host (cmds rename [VStr cube; VStr "grid"] []);
  host_call host (cmds parent [VStr cube; VStr group] []);;
  host_call host (cmds rename [VStr group; VStr "Lab_coordinates_system_representation"] []);;
  mret true.

(** The Lab coordinates [Lab_colourspace_cube] computes for a vertex at
    [position]: the first three elements of
    [tuple(np.ravel(RGB_to_Lab((position[0], position[1], position[2]), colourspace)))],
    the arguments [get_mpoint] hands to [MPoint]. *)
Definition Lab_of_position (colourspace : RGB_Colourspace) (position : MPoint)
  : result (item * item * item) :=
  Lab ← RGB_to_Lab [mp_x position; mp_y position; mp_z position] colourspace;
  coordinates ← tuple (np_ravel Lab);
  L ← tuple_getitem coordinates 0;
  a ← tuple_getitem coordinates 1;
  b ← tuple_getitem coordinates 2;
  mret (L, a, b).

(** Three numbers, as the items of a tuple. *)
Definition numbers (c : float * float * float) : item * item * item :=
  (Number c.1.1, Number c.1.2, Number c.2).

End Plots.

(** ** Module load: the import statements at the top of [plots.py] *)

Section Load.
(** Python objects bound to names, and the import system: what
    [import module] and [from module import attr] answer. *)
Context {Obj : Type}.
Variable import_module : string → result Obj.
Variable import_from : string → string → result Obj.

(** A statement at module level: it may raise, and it leaves the module's
    namespace as it is at that point. *)
Definition Stmt : Type := gmap string Obj → option exc * gmap string Obj.

Definition seq_stmt (s1 s2 : Stmt) : Stmt := λ ns,
  match s1 ns with
  | (None, ns1) => s2 ns1
  | (Some e, ns1) => (Some e, ns1)
  end.

(** [pass] *)
Definition pass : Stmt := λ ns, (None, ns).

(** [import module as alias] *)
Definition import_as (module alias : string) : Stmt := λ ns,
  match import_module module with
  | inr o => (None, <[alias := o]> ns)
  | inl e => (Some e, ns)
  end.

(** [from module import attr] *)
Definition from_import (module attr : string) : Stmt := λ ns,
  match import_from module attr with
  | inr o => (None, <[attr := o]> ns)
  | inl e => (Some e, ns)
  end.

(** [try: body / except cls: handler] *)
Definition try_except (body : Stmt) (cls : exc_class) (handler : Stmt) : Stmt := λ ns,
  match body ns with
  | (None, ns1) => (None, ns1)
  | (Some e, ns1) =>
      if issubclass (exc_cls e) cls then handler ns1 else (Some e, ns1)
  end.

(** Lines 15 to 19: the guarded import of the host API.  The handler is
    [pass]; the name [error] it binds is not a name of the module's interface
    and is left out of the namespace. *)
Definition import_guard : Stmt :=
  try_except
    (seq_stmt (import_as "maya.cmds" "cmds")
              (import_as "maya.OpenMaya" "OpenMaya"))
    ImportError
    pass.

(** Lines 13 to 22: the imports of the module, in order. *)
Definition load_module : Stmt :=
  seq_stmt (import_as "numpy" "np")
 (seq_stmt import_guard
 (seq_stmt (from_import "colour.models" "RGB_to_XYZ")
 (seq_stmt (from_import "colour.models" "XYZ_to_Lab")
           (from_import "colour.colorimetry" "ILLUMINANTS")))).

End Load.

(** ** Runs and traces *)

Section Runs.
Context {World : Type}.
Variable host : @Host World.

(** [steps w t w1]: from the world [w] the host answers the calls of [t],
    one after the other, with the recorded answers, and leaves [w1]. *)
Fixpoint steps (w : World) (t : list event) (w1 : World) : Prop :=
  match t with
  | [] => w1 = w
  | ev :: t1 =>
      (host (ev_call ev) w).1 = ev_resp ev ∧ steps (host (ev_call ev) w).2 t1 w1
  end.

(** A failed call is the last call of the run, and its exception is the
    run's outcome. *)
Definition aborts_on_failure {A} (o : outcome A) (t : list event) : Prop :=
  ∀ t0 ev t1 e,
    t = t0 ++ ev :: t1 → ev_failure ev = Some e → t1 = [] ∧ o = Raised e.

(** A program propagates the host's failures: in every run the world is
    the one the host left after the recorded calls and nothing else, and the
    first failed call ends the run with the host's exception. *)
Definition propagates {A} (m : @M World A) : Prop :=
  ∀ w o w1 t, m w = (o, w1, t) → steps w t w1 ∧ aborts_on_failure o t.

(** In the run of [whole] from [w], the program [m] is called and returns
    [a]: the trace of [whole] holds, after the calls [pre] that lead from [w]
    to a world [w1], the trace of the run of [m] from [w1]. *)
Definition calls {A B} (whole : @M World B) (w : World) (m : @M World A) (a : A)
  : Prop :=
  ∃ pre w1 w2 t post,
    (whole w).2 = pre ++ t ++ post
    ∧ steps w pre w1
    ∧ m w1 = (Returned a, w2, t).

End Runs.

(** The successful call [cmds.setAttr(attribute, value)]. *)
Definition setAttr_call (entry : string * value) : call :=
  cmds setAttr [VStr entry.1; entry.2] [].

Definition setAttr_event (entry : string * value) : event :=
  Ev (setAttr_call entry) (inr ()).

(** The four calls of a successful [get_dag_path(node)]. *)
Definition get_dag_path_events (node : string) (selection_list dag_path : handle)
  : list event :=
  [Ev MSelectionList (inr selection_list);
   Ev (MSelectionList_add selection_list node) (inr ());
   Ev MDagPath (inr dag_path);
   Ev (MSelectionList_getDagPath selection_list 0 dag_path) (inr ())].

(** The call of [get_shapes] and its answer. *)
Definition listRelatives_shapes (object : string) (full_path no_intermediate : bool)
  : call :=
  cmds listRelatives [VStr object]
    [("fullPath", VBool full_path); ("shapes", VBool true);
     ("noIntermediate", VBool no_intermediate)].

(** [cmds.makeIdentity(node, apply=True, t=True, r=True, s=True)] *)
Definition makeIdentity_call (node : string) : call :=
  cmds makeIdentity [VStr node]
    [("apply", VBool true); ("t", VBool true); ("r", VBool true); ("s", VBool true)].

(** One turn of the colouring loop of [RGB_identity_cube] at index [i]: the
    three reads of [point_array[i]] and the two appends. *)
Definition colour_events (point_array colours indices : handle) (i : nat)
  (reads : MPoint * MPoint * MPoint) : list event :=
  let '(p0, p1, p2) := reads in
  [Ev (MPointArray_getitem point_array i) (inr p0);
   Ev (MPointArray_getitem point_array i) (inr p1);
   Ev (MPointArray_getitem point_array i) (inr p2);
   Ev (MColorArray_append colours (mp_x p0) (mp_y p1) (mp_z p2)) (inr ());
   Ev (MIntArray_append indices i) (inr ())].

(** The colours and the indices a trace appends, in order. *)
Definition colours_appended (t : list event) : list (float * float * float) :=
  omap (λ ev, match ev_call ev with
              | MColorArray_append _ r g b => Some (r, g, b)
              | _ => None
              end) t.

Definition indices_appended (t : list event) : list nat :=
  omap (λ ev, match ev_call ev with
              | MIntArray_append _ i => Some i
              | _ => None
              end) t.

(** One turn of the loop of [Lab_colourspace_cube]: the iterator is not
    done, the vertex is at [position], [MPoint(L, a, b)] answers [point],
    which is written back, and the iterator advances. *)
Record visit := Visit {
  position : MPoint;
  Lab : float * float * float;
  point : MPoint
}.

Definition deform_events (it : handle) (v : visit) : list event :=
  let '(L, a, b) := Lab v in
  [Ev (MItMeshVertex_isDone it) (inr false);
   Ev (MItMeshVertex_position it kObject) (inr (position v));
   Ev (MPoint_new L a b) (inr (point v));
   Ev (MItMeshVertex_setPosition it (point v)) (inr ());
   Ev (MItMeshVertex_next it) (inr ())].

(** The positions a trace writes through the vertex iterator, in order. *)
Definition positions_set (t : list event) : list MPoint :=
  omap (λ ev, match ev_call ev with
              | MItMeshVertex_setPosition _ p => Some p
              | _ => None
              end) t.

(** What the host answers in a successful run of [RGB_identity_cube]:
    [polyCube] a non-empty list of nodes, the three array constructors,
    [listRelatives] a non-empty list of shapes, the calls of [get_dag_path],
    [MFnMesh], the length of the point array (the number of [reads]) and the
    points read, three reads for each index, and [rename] the new name. *)
Record cube_answers := CubeAnswers {
  poly_cube : string;
  poly_cubes_rest : list string;
  colour_array : handle;
  index_array : handle;
  point_array : handle;
  cube_shape : string;
  cube_shapes_rest : list string;
  shape_selection : handle;
  shape_path : handle;
  mesh_fn : handle;
  point_reads : list (MPoint * MPoint * MPoint);
  new_name : string
}.

(** The translation [RGB_identity_cube] applies to the cube. *)
Definition cube_translation (cube : string) : pydict value :=
  dict [(fmt_attr cube "translateX", VFloat 0.5);
        (fmt_attr cube "translateY", VFloat 0.5);
        (fmt_attr cube "translateZ", VFloat 0.5)].

(** The calls of [RGB_identity_cube] up to the loop over the points. *)
Definition cube_setup_events (density : Z) (a : cube_answers) : list event :=
  [Ev (cmds polyCube []
         [("w", VInt 1); ("h", VInt 1); ("d", VInt 1);
          ("sx", VInt density); ("sy", VInt density); ("sz", VInt density);
          ("ch", VBool false)])
      (inr (poly_cube a :: poly_cubes_rest a))]
  ++ (setAttr_event <$> items (cube_translation (poly_cube a)))
  ++ [Ev (cmds setAttr [VStr (fmt_attr (poly_cube a) "displayColors"); VBool true] [])
        (inr ());
      Ev MColorArray (inr (colour_array a));
      Ev MIntArray (inr (index_array a));
      Ev MPointArray (inr (point_array a));
      Ev (listRelatives_shapes (poly_cube a) false true)
        (inr (Some (cube_shape a :: cube_shapes_rest a)))]
  ++ get_dag_path_events (cube_shape a) (shape_selection a) (shape_path a)
  ++ [Ev (MFnMesh (shape_path a)) (inr (mesh_fn a));
      Ev (MFnMesh_getPoints (mesh_fn a) (point_array a) kWorld) (inr ());
      Ev (MPointArray_length (point_array a)) (inr (length (point_reads a)))].

(** The loop over the points: one turn for each index below the length. *)
Definition cube_colour_events (a : cube_answers) : list event :=
  concat (zip_with (colour_events (point_array a) (colour_array a) (index_array a))
            (seq 0 (length (point_reads a))) (point_reads a)).

(** The calls after the loop. *)
Definition cube_finish_events (name : string) (a : cube_answers) : list event :=
  [Ev (MFnMesh_setVertexColors (mesh_fn a) (colour_array a) (index_array a)) (inr ());
   Ev (makeIdentity_call (poly_cube a)) (inr ());
   Ev (cmds xform [VStr (poly_cube a)]
         [("a", VBool true);
          ("rotatePivot", VTuple [VInt 0; VInt 0; VInt 0]);
          ("scalePivot", VTuple [VInt 0; VInt 0; VInt 0])])
      (inr ());
   Ev (cmds rename [VStr (poly_cube a); VStr name] []) (inr (new_name a))].

(** The trace of a successful [RGB_identity_cube(name, density)]. *)
Definition RGB_identity_cube_events (name : string) (density : Z) (a : cube_answers)
  : list event :=
  cube_setup_events density a ++ cube_colour_events a ++ cube_finish_events name a.

(** The rotation [Lab_colourspace_cube] applies to the cube. *)
Definition cube_rotation (cube : string) : pydict value :=
  dict [(fmt_attr cube "rotateX", VInt 180);
        (fmt_attr cube "rotateZ", VInt 90)].

(** The calls of [Lab_colourspace_cube] after [RGB_identity_cube] returned
    [cube]: [get_dag_path(cube)], the vertex iterator, one turn of the loop
    for each visit, the iterator done, the rotation and the freeze. *)
Definition deform_cube_events (cube : string) (selection_list dag_path it : handle)
  (visits : list visit) : list event :=
  get_dag_path_events cube selection_list dag_path
  ++ [Ev (MItMeshVertex dag_path) (inr it)]
  ++ concat (deform_events it <$> visits)
  ++ [Ev (MItMeshVertex_isDone it) (inr true)]
  ++ (setAttr_event <$> items (cube_rotation cube))
  ++ [Ev (makeIdentity_call cube) (inr ())].

(** The calls of [RGB_identity_cube] up to the answer of [listRelatives]
    on the cube it created. *)
Definition cube_shapes_events (density : Z) (cube : string) (cubes_rest : list string)
  (colours indices points : handle) (shapes : option (list string)) : list event :=
  [Ev (cmds polyCube []
         [("w", VInt 1); ("h", VInt 1); ("d", VInt 1);
          ("sx", VInt density); ("sy", VInt density); ("sz", VInt density);
          ("ch", VBool false)])
      (inr (cube :: cubes_rest))]
  ++ (setAttr_event <$> items (cube_translation cube))
  ++ [Ev (cmds setAttr [VStr (fmt_attr cube "displayColors"); VBool true] [])
        (inr ());
      Ev MColorArray (inr colours);
      Ev MIntArray (inr indices);
      Ev MPointArray (inr points);
      Ev (listRelatives_shapes cube false true) (inr shapes)].

(** The calls of [Lab_colourspace_cube] after [RGB_identity_cube] returned
    [cube], up to the read of a vertex at [position], after the full turns
    of the loop for [visits]. *)
Definition deform_until_events (cube : string) (selection_list dag_path it : handle)
  (visits : list visit) (position : MPoint) : list event :=
  get_dag_path_events cube selection_list dag_path
  ++ [Ev (MItMeshVertex dag_path) (inr it)]
  ++ concat (deform_events it <$> visits)
  ++ [Ev (MItMeshVertex_isDone it) (inr false);
      Ev (MItMeshVertex_position it kObject) (inr position)].

(** *** [Lab_coordinates_system_representation] *)

(** The attributes the function sets on the grid cube. *)
Definition grid_attributes (cube : string) : pydict value :=
  dict [(fmt_attr cube "translateY", VInt 50);
        (fmt_attr cube "overrideEnabled", VBool true);
        (fmt_attr cube "overrideDisplayType", VInt 2);
        (fmt_attr cube "overrideShading", VBool false)].

(** The attributes it sets on the mesh of a label placed at [position]:
    the display of the source, [scaleY] written twice. *)
Definition label_attributes (mesh : string) (position : Z * Z) : pydict value :=
  dict [(fmt_attr mesh "translateX", VInt position.1);
        (fmt_attr mesh "translateZ", VInt position.2);
        (fmt_attr mesh "rotateX", VInt (-90));
        (fmt_attr mesh "scaleX", VInt 50);
        (fmt_attr mesh "scaleY", VInt 50);
        (fmt_attr mesh "scaleY", VInt 50);
        (fmt_attr mesh "overrideEnabled", VBool true);
        (fmt_attr mesh "overrideDisplayType", VInt 2)].

(** What the host answers in one turn of the loop over the labels:
    [textCurves] a non-empty list of nodes, [listRelatives] the curves of the
    first, [planarSrf] a list for each curve, [polyUnite] a non-empty list of
    meshes, [listRelatives(curves, parent=True)] the parents of the curves
    (or [None]), and [rename] the name of the label's node. *)
Record label_answers := LabelAnswers {
  text_node : string;
  text_nodes_rest : list string;
  text_curves : list string;
  curve_surfaces : list (list string);
  label_mesh : string;
  label_meshes_rest : list string;
  curve_parents : option (list string);
  label_node : string
}.

(** The calls of one turn, for the label [(text, position, name)], in the
    group [group] beside the grid cube [cube]. *)
Definition label_events (group cube : string) (label : string * (Z * Z) * string)
  (a : label_answers) : list event :=
  [Ev (cmds textCurves [] [("f", VStr "Arial Black Bold"); ("t", VStr label.1.1)])
      (inr (text_node a :: text_nodes_rest a));
   Ev (cmds listRelatives [VStr (text_node a)] []) (inr (Some (text_curves a)))]
  ++ zip_with (λ x surface,
       Ev (cmds planarSrf [VStr x]
             [("ch", VBool false); ("o", VBool true); ("po", VInt 1)])
          (inr surface))
       (text_curves a) (curve_surfaces a)
  ++ [Ev (cmds polyUnite ((λ s, VList (VStr <$> s)) <$> curve_surfaces a)
            [("ch", VBool false)])
         (inr (label_mesh a :: label_meshes_rest a));
      Ev (cmds xform [VStr (label_mesh a)] [("cp", VBool true)]) (inr ());
      Ev (cmds xform [VStr (label_mesh a)]
            [("translation", VTuple [VInt 0; VInt 0; VInt 0]);
             ("absolute", VBool true)])
         (inr ());
      Ev (makeIdentity_call cube) (inr ());
      Ev (cmds select [VStr (label_mesh a)] []) (inr ());
      Ev (cmds polyColorPerVertex []
            [("rgb", VTuple [VInt 0; VInt 0; VInt 0]); ("cdo", VBool true)])
         (inr ())]
  ++ (setAttr_event <$> items (label_attributes (label_mesh a) label.1.2))
  ++ [Ev (cmds listRelatives [names_value (Some (text_curves a))]
            [("parent", VBool true)])
         (inr (curve_parents a));
      Ev (cmds delete [names_value (curve_parents a)] []) (inr ());
      Ev (makeIdentity_call (label_mesh a)) (inr ());
      Ev (cmds rename [VStr (label_mesh a); VStr label.2] []) (inr (label_node a));
      Ev (cmds parent [VStr (label_node a); VStr group] []) (inr ())].

Section Turns.
Context {World : Type}.
Variable host : @Host World.

(** The body of the loop over the labels (lines 265 to 289), with the
    group and the grid cube the function made before the loop. *)
Definition label_turn (group cube : string) (label : string * (Z * Z) * string)
  : @M World unit :=
  let '(label, position, name) := label in
  texts ← host_call host (cmds textCurves []
                            [("f", VStr "Arial Black Bold"); ("t", VStr label)]);
  text ← lift (getitem texts 0);
  curves ← host_call host (cmds listRelatives [VStr text] []);
  xs ← lift (iter curves);
  surfaces ← comprehension xs (λ x,
    host_call host (cmds planarSrf [VStr x]
                      [("ch", VBool false); ("o", VBool true); ("po", VInt 1)]));
  meshes ← host_call host (cmds polyUnite ((λ s, VList (VStr <$> s)) <$> surfaces)
                             [("ch", VBool false)]);
  mesh ← lift (getitem meshes 0);
  host_call host (cmds xform [VStr mesh] [("cp", VBool true)]);;
  host_call host (cmds xform [VStr mesh]
                    [("translation", VTuple [VInt 0; VInt 0; VInt 0]);
                     ("absolute", VBool true)]);;
  host_call host (cmds makeIdentity [VStr cube]
                    [("apply", VBool true); ("t", VBool true);
                     ("r", VBool true); ("s", VBool true)]);;
  host_call host (cmds select [VStr mesh] []);;
  host_call host (cmds polyColorPerVertex []
                    [("rgb", VTuple [VInt 0; VInt 0; VInt 0]); ("cdo", VBool true)]);;
  set_attributes host (dict [(fmt_attr mesh "translateX", VInt position.1);
                             (fmt_attr mesh "translateZ", VInt position.2);
                             (fmt_attr mesh "rotateX", VInt (-90));
                             (fmt_attr mesh "scaleX", VInt 50);
                             (fmt_attr mesh "scaleY", VInt 50);
                             (fmt_attr mesh "scaleY", VInt 50);
                             (fmt_attr mesh "overrideEnabled", VBool true);
                             (fmt_attr mesh "overrideDisplayType", VInt 2)]);;
  parents ← host_call host (cmds listRelatives [names_value curves]
                              [("parent", VBool true)]);
  host_call host (cmds delete [names_value parents] []);;
  host_call host (cmds makeIdentity [VStr mesh]
                    [("apply", VBool true); ("t", VBool true);
                     ("r", VBool true); ("s", VBool true)]);;
  mesh ← host_call host (cmds rename [VStr mesh; VStr name] []);
  host_call host (cmds parent [VStr mesh; VStr group] []);;
  mret ().

End Turns.

(** What the host answers in a successful run of the whole function. *)
Record grid_answers := GridAnswers {
  group_node : string;
  grid_cube : string;
  grid_cubes_rest : list string;
  labels : list label_answers;
  grid_node : string;
  group_name : string
}.

(** The calls before the loop over the labels. *)
Definition grid_setup_events (a : grid_answers) : list event :=
  [Ev (cmds createNode [VStr "transform"] []) (inr (group_node a));
   Ev (cmds polyCube []
         [("w", VInt 600); ("h", VInt 100); ("d", VInt 600);
          ("sx", VInt 12); ("sy", VInt 2); ("sz", VInt 12); ("ch", VBool false)])
      (inr (grid_cube a :: grid_cubes_rest a))]
  ++ (setAttr_event <$> items (grid_attributes (grid_cube a)))
  ++ [Ev (makeIdentity_call (grid_cube a)) (inr ());
      Ev (cmds select [VList [VStr (fmt_attr (grid_cube a) "f[0:167]");
                              VStr (fmt_attr (grid_cube a) "f[336:359]")]] [])
         (inr ());
      Ev (cmds delete [] []) (inr ());
      Ev (cmds nurbsToPolygonsPref []
            [("polyType", VInt 1); ("chordHeightRatio", VFloat 0.975)])
         (inr ())].

(** The turns of the loop for the first labels of [axis_labels]. *)
Definition grid_label_events (a : grid_answers) : list event :=
  concat (zip_with (label_events (group_node a) (grid_cube a)) axis_labels (labels a)).

(** The calls after the loop. *)
Definition grid_finish_events (a : grid_answers) : list event :=
  [Ev (cmds rename [VStr (grid_cube a); VStr "grid"] []) (inr (grid_node a));
   Ev (cmds parent [VStr (grid_node a); VStr (group_node a)] []) (inr ());
   Ev (cmds rename [VStr (group_node a);
                    VStr "Lab_coordinates_system_representation"] [])
      (inr (group_name a))].

(** The trace of a successful [Lab_coordinates_system_representation()]. *)
Definition Lab_coordinates_system_representation_events (a : grid_answers)
  : list event :=
  grid_setup_events a ++ grid_label_events a ++ grid_finish_events a.

(** The answers fit the function: a turn for each of the four labels, a
    surface for each curve. *)
Definition grid_answers_fit (a : grid_answers) : Prop :=
  length (labels a) = length axis_labels
  ∧ Forall (λ l, length (curve_surfaces l) = length (text_curves l)) (labels a).

(** The calls of the function up to a label whose text has no curve:
    the setup, the turns for the labels before it, and, for the label
    [text], [textCurves] and [listRelatives] answering [None]. *)
Definition grid_until_curves_events (a : grid_answers) (text : string)
  (text_node : string) (text_nodes_rest : list string) : list event :=
  grid_setup_events a
  ++ grid_label_events a
  ++ [Ev (cmds textCurves [] [("f", VStr "Arial Black Bold"); ("t", VStr text)])
         (inr (text_node :: text_nodes_rest));
      Ev (cmds listRelatives [VStr text_node] []) (inr None)].

(** The entries of [grid_attributes] and of [label_attributes], each once,
    in the order of the displays. *)
Definition grid_entries (cube : string) : list (string * value) :=
  [(fmt_attr cube "translateY", VInt 50);
   (fmt_attr cube "overrideEnabled", VBool true);
   (fmt_attr cube "overrideDisplayType", VInt 2);
   (fmt_attr cube "overrideShading", VBool false)].

Definition label_entries (mesh : string) (position : Z * Z) : list (string * value) :=
  [(fmt_attr mesh "translateX", VInt position.1);
   (fmt_attr mesh "translateZ", VInt position.2);
   (fmt_attr mesh "rotateX", VInt (-90));
   (fmt_attr mesh "scaleX", VInt 50);
   (fmt_attr mesh "scaleY", VInt 50);
   (fmt_attr mesh "overrideEnabled", VBool true);
   (fmt_attr mesh "overrideDisplayType", VInt 2)].

(** What a trace sets, parents and renames, in order. *)
Definition attributes_set (t : list event) : list (string * value) :=
  omap (λ ev, match ev_call ev with
              | cmds setAttr [VStr attribute; value] [] => Some (attribute, value)
              | _ => None
              end) t.

Definition nodes_parented (t : list event) : list (string * string) :=
  omap (λ ev, match ev_call ev with
              | cmds parent [VStr child; VStr group] [] => Some (child, group)
              | _ => None
              end) t.

Definition renames_asked (t : list event) : list (string * string) :=
  omap (λ ev, match ev_call ev with
              | cmds rename [VStr node; VStr name] [] => Some (node, name)
              | _ => None
              end) t.

(** ** A small host to run the functions on

    One mesh whose vertices the point array and the vertex iterator walk
    through; every constructor yields a fresh reference.  [broken] selects
    the calls that fail. *)

Module Demo.

Record scene := Scene {
  fresh : nat;
  vertices : list MPoint;
  cursor : nat;
  shapes : option (list string)
}.

Definition failure : exc := Exc RuntimeError "Maya command error".

Definition cmd_answer (w : scene) (c : cmd) (args : list value) : cmd_resp c :=
  match c with
  | listRelatives => shapes w
  | polyCube => ["pCube1"]
  | textCurves => ["Text_1"]
  | planarSrf => ["planarTrimmedSurface1"]
  | polyUnite => ["polySurface1"]
  | rename =>
      match args with
      | [_; VStr new] => new
      | _ => ""
      end
  | createNode => "transform1"
  | _ => ()
  end.

Definition new_ref (w : scene) : (exc + handle) * scene :=
  (inr (fresh w), Scene (S (fresh w)) (vertices w) (cursor w) (shapes w)).

Definition answer (c : call) (w : scene) : (exc + resp c) * scene :=
  match c with
  | cmds c args _ => (inr (cmd_answer w c args), w)
  | MSelectionList => new_ref w
  | MDagPath => new_ref w
  | MColorArray => new_ref w
  | MIntArray => new_ref w
  | MPointArray => new_ref w
  | MFnMesh _ => new_ref w
  | MItMeshVertex _ =>
      (inr (fresh w), Scene (S (fresh w)) (vertices w) 0 (shapes w))
  | MPoint_new x y z =>
      (match x, y, z with
       | Number x, Number y, Number z =>
           inr {| mp_x := x; mp_y := y; mp_z := z; mp_w := 1 |}
       | _, _, _ => inl (Exc TypeError "MPoint: the coordinates must be numbers")
       end, w)
  | MPointArray_length _ => (inr (length (vertices w)), w)
  | MPointArray_getitem _ i =>
      (match vertices w !! i with
       | Some p => inr p
       | None => inl (Exc IndexError "MPointArray: index out of range")
       end, w)
  | MItMeshVertex_isDone _ => (inr (bool_decide (length (vertices w) ≤ cursor w)), w)
  | MItMeshVertex_position _ _ =>
      (match vertices w !! cursor w with
       | Some p => inr p
       | None => inl failure
       end, w)
  | MItMeshVertex_setPosition _ p =>
      (inr (), Scene (fresh w) (<[cursor w := p]> (vertices w)) (cursor w) (shapes w))
  | MItMeshVertex_next _ =>
      (inr (), Scene (fresh w) (vertices w) (S (cursor w)) (shapes w))
  | MSelectionList_add _ _ => (inr (), w)
  | MSelectionList_getDagPath _ _ _ => (inr (), w)
  | MFnMesh_getPoints _ _ _ => (inr (), w)
  | MColorArray_append _ _ _ _ => (inr (), w)
  | MIntArray_append _ _ => (inr (), w)
  | MFnMesh_setVertexColors _ _ _ => (inr (), w)
  end.

Definition host (broken : call → bool) : @Host scene := λ c w,
  if broken c then (inl failure, w) else answer c w.

(** A host on which every call succeeds. *)
Definition sound : @Host scene := host (λ _, false).

(** A host that refuses to set [attribute]. *)
Definition refusing (attribute : string) : @Host scene :=
  host (λ c, match c with
             | cmds setAttr (VStr a :: _) _ => bool_decide (a = attribute)
             | _ => false
             end).

Definition origin : MPoint := {| mp_x := 0; mp_y := 0; mp_z := 0; mp_w := 1 |}.
Definition corner : MPoint := {| mp_x := 1; mp_y := 0.5; mp_z := 0.25; mp_w := 1 |}.

(** A scene whose mesh has two vertices. *)
Definition start : scene := Scene 0 [origin; corner] 0 (Some ["pCubeShape1"]).

(** The same scene with a node that has no shape. *)
Definition shapeless : scene := Scene 0 [origin; corner] 0 None.

(** A stand-in for the colour library: the two transforms permute the
    components, differently, so that their order shows. *)
Definition RGB_to_XYZ (RGB : ndarray) (_ : xy) (_ : option xy) (_ : ndarray)
  (_ : string) (_ : float → float) : result ndarray :=
  inr (NdArray [3; 1] (reverse (data RGB))).

Definition XYZ_to_Lab (XYZ : ndarray) (_ : xy) : result ndarray :=
  inr (NdArray [3; 1] (rotate 1 (data XYZ))).

Definition ILLUMINANTS : gmap string (gmap string xy) :=
  {[ "CIE 1931 2 Degree Standard Observer" := {[ "E" := (0.5, 0.25)%float ]} ]}.





Definition identity : ndarray := NdArray [3; 3] [1; 0; 0; 0; 1; 0; 0; 0; 1]%float.

Definition colourspace (name : string) : RGB_Colourspace := {|
  name := name;
  primaries := NdArray [3; 2] [1; 0; 0; 1; 0; 0]%float;
  whitepoint := (0.5, 0.25)%float;
  to_XYZ := identity;
  from_XYZ := identity;
  transfer_function := λ x, x;
  inverse_transfer_function := λ x, x
|}.

(** The two cubes, built in the two-vertex scene. *)
Definition cube_run : outcome string * scene * list event :=
  RGB_identity_cube sound "sRGB" 20 start.

Definition Lab_run (fuel : nat) : outcome string * scene * list event :=
  Lab_colourspace_cube sound RGB_to_XYZ XYZ_to_Lab ILLUMINANTS fuel
    (colourspace "sRGB") 20 start.

(** Module objects carry nothing here. *)
Definition outside_maya (module : string) : result unit :=
  if bool_decide (module = "maya.cmds" ∨ module = "maya.OpenMaya")
  then inl (Exc ModuleNotFoundError "No module named 'maya'")
  else inr ().

(** A host API whose import stops on an error of its own. *)
Definition faulty_maya (module : string) : result unit :=
  if bool_decide (module = "maya.cmds")
  then inl (Exc RuntimeError "maya.cmds failed to initialise")
  else inr ().

Definition faulty_OpenMaya (module : string) : result unit :=
  if bool_decide (module = "maya.OpenMaya")
  then inl (Exc RuntimeError "maya.OpenMaya failed to initialise")
  else inr ().

Definition attribute (module attr : string) : result unit := inr ().

(** Inside Maya every module is found. *)
Definition inside_maya (module : string) : result unit := inr ().

(** An interpreter without numpy, and one without the colour library. *)
Definition without_numpy (module : string) : result unit :=
  if bool_decide (module = "numpy")
  then inl (Exc ModuleNotFoundError "No module named 'numpy'")
  else inr ().

Definition without_colour (module attr : string) : result unit :=
  inl (Exc ModuleNotFoundError "No module named 'colour'").

(** A stand-in transform that accepts black only. *)
Definition black_only (RGB : ndarray) (_ : xy) (_ : option xy) (_ : ndarray)
  (_ : string) (_ : float → float) : result ndarray :=
  if forallb (PrimFloat.eqb 0) (data RGB)
  then inr (NdArray [3; 1] (data RGB))
  else inl (Exc ValueError "RGB out of range").

(** What the sound host answers while the cube is built in the two-vertex
    scene. *)
Definition cube_built : cube_answers := {|
  poly_cube := "pCube1";
  poly_cubes_rest := [];
  colour_array := 0;
  index_array := 1;
  point_array := 2;
  cube_shape := "pCubeShape1";
  cube_shapes_rest := [];
  shape_selection := 3;
  shape_path := 4;
  mesh_fn := 5;
  point_reads := [(origin, origin, origin); (corner, corner, corner)];
  new_name := "sRGB"
|}.

(** What it answers for a label and for the whole coordinates system. *)
Definition label_made (name : string) : label_answers := {|
  text_node := "Text_1";
  text_nodes_rest := [];
  text_curves := ["pCubeShape1"];
  curve_surfaces := [["planarTrimmedSurface1"]];
  label_mesh := "polySurface1";
  label_meshes_rest := [];
  curve_parents := Some ["pCubeShape1"];
  label_node := name
|}.

Definition grid_made (labels : list string) : grid_answers := {|
  group_node := "transform1";
  grid_cube := "pCube1";
  grid_cubes_rest := [];
  labels := label_made <$> labels;
  grid_node := "grid";
  group_name := "Lab_coordinates_system_representation"
|}.

Definition grid_run : outcome bool * scene * list event :=
  Lab_coordinates_system_representation sound start.

End Demo.

(** * Properties *)

(** ** Dicts *)

Section DictFacts.
Context {V : Type}.
Implicit Types (d : pydict V) (k : string) (v : V).

Lemma setitem_new k v d : k ∉ keys d → setitem k v d = d ++ [(k, v)].
Proof.
  unfold keys. induction d as [|[k1 v1] d IH]; simpl; [done|].
  rewrite not_elem_of_cons. intros [Hne Hin].
  rewrite decide_False by done. by rewrite IH.
Qed.

(** A key that is there keeps its place and takes the new value. *)
Lemma setitem_there k v v0 d1 d2 :
  k ∉ keys d1 → setitem k v (d1 ++ (k, v0) :: d2) = d1 ++ (k, v) :: d2.
Proof.
  unfold keys. induction d1 as [|[k1 v1] d1 IH]; simpl.
  - intros _. by rewrite decide_True.
  - rewrite not_elem_of_cons. intros [Hne Hin].
    rewrite decide_False by done. by rewrite IH.
Qed.

Lemma setitem_keys k v d :
  keys (setitem k v d) = if decide (k ∈ keys d) then keys d else keys d ++ [k].
Proof.
  unfold keys. induction d as [|[k1 v1] d IH].
  - simpl. destruct (decide (k ∈ [])) as [Hin|Hin]; [|done].
    by apply elem_of_nil in Hin.
  - cbn [setitem]. destruct (decide (k1 = k)) as [->|Hne].
    + rewrite !fmap_cons. cbn [fst].
      destruct (decide (k ∈ k :: d.*1)) as [Hin|Hin]; [done|].
      destruct Hin. apply elem_of_cons. by left.
    + rewrite !fmap_cons. cbn [fst]. rewrite IH.
      destruct (decide (k ∈ d.*1)) as [Hin|Hin];
        destruct (decide (k ∈ k1 :: d.*1)) as [Hin1|Hin1]; try done.
      * destruct Hin1. apply elem_of_cons. by right.
      * apply elem_of_cons in Hin1 as [->|Hin1]; done.
Qed.

Lemma setitem_NoDup k v d : NoDup (keys d) → NoDup (keys (setitem k v d)).
Proof.
  intros Hd. rewrite setitem_keys. destruct (decide (k ∈ keys d)); [done|].
  apply NoDup_app. split_and!; [done| |apply NoDup_singleton].
  intros x Hx ->%list_elem_of_singleton. done.
Qed.

(** A dict holds every key once. *)
Lemma dict_NoDup (entries : list (string * V)) : NoDup (keys (dict entries)).
Proof.
  unfold dict.
  assert (∀ d, NoDup (keys d) →
               NoDup (keys (fold_left (λ d kv, setitem kv.1 kv.2 d) entries d)))
    as Hgen.
  { induction entries as [|[k v] entries IH]; intros d Hd; simpl; [done|].
    apply IH. by apply setitem_NoDup. }
  apply Hgen. apply NoDup_nil_2.
Qed.

(** A display of distinct keys is the dict of its entries, in their
    order. *)
Lemma dict_distinct (entries : list (string * V)) :
  NoDup entries.*1 → dict entries = entries.
Proof.
  unfold dict.
  assert (∀ d, NoDup (d ++ entries).*1 →
               fold_left (λ d kv, setitem kv.1 kv.2 d) entries d = d ++ entries)
    as Hgen.
  { induction entries as [|[k v] entries IH]; intros d Hd; simpl.
    - by rewrite app_nil_r.
    - rewrite setitem_new.
      + rewrite IH; rewrite <-app_assoc; done.
      + rewrite fmap_app in Hd. apply NoDup_app in Hd as (_ & Hd & _).
        intros Hin. apply (Hd k Hin). simpl. apply elem_of_cons. by left. }
  intros Hd. by rewrite Hgen.
Qed.

(** Every dict is the dict of its own items. *)
Lemma dict_items d : NoDup (keys d) → dict (items d) = d.
Proof. apply dict_distinct. Qed.

Lemma get_Some d k v : NoDup (keys d) → get d k = Some v ↔ (k, v) ∈ items d.
Proof.
  unfold keys, items. induction d as [|[k1 v1] d IH]; simpl.
  - intros _. split; [done|]. by intros ?%elem_of_nil.
  - intros [Hk1 Hd]%NoDup_cons. rewrite elem_of_cons.
    destruct (decide (k1 = k)) as [->|Hne].
    + split; [intros [= ->]; by left|].
      intros [[= ->]|Hin]; [done|].
      destruct Hk1. apply list_elem_of_fmap. by exists (k, v).
    + rewrite IH by done. split; [by right|].
      intros [[= ? ?]|Hin]; [congruence|done].
Qed.

(** Renaming the keys apart commutes with writing them. *)
Lemma setitem_fmap (f : string → string) `{!Inj (=) (=) f} k v d :
  setitem (f k) v (prod_map f id <$> d) = prod_map f id <$> setitem k v d.
Proof.
  induction d as [|[k1 v1] d IH]; simpl; [done|].
  destruct (decide (k1 = k)) as [->|Hne].
  - by rewrite decide_True.
  - rewrite decide_False by (by intros ?%(inj f)). simpl. f_equal. apply IH.
Qed.

Lemma dict_fmap (f : string → string) `{!Inj (=) (=) f} (entries : list (string * V)) :
  dict (prod_map f id <$> entries) = prod_map f id <$> dict entries.
Proof.
  unfold dict.
  assert (∀ d, fold_left (λ d kv, setitem kv.1 kv.2 d) (prod_map f id <$> entries)
                 (prod_map f id <$> d)
               = prod_map f id
                   <$> fold_left (λ d kv, setitem kv.1 kv.2 d) entries d) as Hgen.
  { induction entries as [|[k v] entries IH]; intros d; [done|].
    rewrite fmap_cons. cbn [fold_left prod_map fst snd id].
    by rewrite setitem_fmap, IH. }
  apply (Hgen []).
Qed.

End DictFacts.

(** ** The displays of the module *)

(** The formatted attribute names of one node are distinct. *)
Lemma fmt_attr_inj node attr1 attr2 :
  fmt_attr node attr1 = fmt_attr node attr2 → attr1 = attr2.
Proof.
  unfold fmt_attr. induction node as [|c node IH]; simpl.
  - by intros [= H].
  - intros [= H]. by apply IH.
Qed.

#[local] Instance fmt_attr_Inj node : Inj (=) (=) (fmt_attr node).
Proof. intros attr1 attr2. apply fmt_attr_inj. Qed.

(** The dict of a display whose keys are attributes of one node: the
    display is written with the bare attribute names, where the keys are
    strings that compare by computation. *)
Lemma dict_of_node {V} node (entries : list (string * V)) :
  dict (prod_map (fmt_attr node) id <$> entries)
  = prod_map (fmt_attr node) id <$> dict entries.
Proof. apply dict_fmap, _. Qed.

Lemma get_of_node {V} node (d : pydict V) k :
  get (prod_map (fmt_attr node) id <$> d) (fmt_attr node k) = get d k.
Proof.
  induction d as [|[k1 v1] d IH]; simpl; [done|].
  destruct (decide (k1 = k)) as [->|Hne].
  - by rewrite decide_True.
  - by rewrite decide_False by (by intros ?%fmt_attr_inj).
Qed.

(** The items of the four mappings, in the order [set_attributes] goes
    through them. *)
Lemma cube_translation_entries cube :
  items (cube_translation cube)
  = [(fmt_attr cube "translateX", VFloat 0.5);
     (fmt_attr cube "translateY", VFloat 0.5);
     (fmt_attr cube "translateZ", VFloat 0.5)].
Proof.
  exact (dict_of_node cube [("translateX", VFloat 0.5); ("translateY", VFloat 0.5);
                            ("translateZ", VFloat 0.5)]).
Qed.

Lemma cube_rotation_entries cube :
  items (cube_rotation cube)
  = [(fmt_attr cube "rotateX", VInt 180); (fmt_attr cube "rotateZ", VInt 90)].
Proof.
  exact (dict_of_node cube [("rotateX", VInt 180); ("rotateZ", VInt 90)]).
Qed.

Lemma grid_attributes_entries cube :
  items (grid_attributes cube) = grid_entries cube.
Proof.
  exact (dict_of_node cube [("translateY", VInt 50); ("overrideEnabled", VBool true);
                            ("overrideDisplayType", VInt 2);
                            ("overrideShading", VBool false)]).
Qed.

Lemma label_attributes_entries mesh position :
  items (label_attributes mesh position) = label_entries mesh position.
Proof.
  exact (dict_of_node mesh [("translateX", VInt position.1);
                            ("translateZ", VInt position.2);
                            ("rotateX", VInt (-90)); ("scaleX", VInt 50);
                            ("scaleY", VInt 50); ("scaleY", VInt 50);
                            ("overrideEnabled", VBool true);
                            ("overrideDisplayType", VInt 2)]).
Qed.

(** ** The monad: how runs compose *)

Lemma pair_eta {A B} {p : A * B} {a} : p.1 = a → p = (a, p.2).
Proof. destruct p. by intros <-. Qed.

Section RunFacts.
Context {World : Type}.
Variable host : @Host World.
Abbreviation M := (@M World).

Lemma bind_run {A B} (m : M A) (f : A → M B) w :
  (m ≫= f) w =
    match m w with
    | (Returned a, w1, t1) =>
        match f a w1 with
        | (o, w2, t2) => (o, w2, t1 ++ t2)
        end
    | (Raised e, w1, t1) => (Raised e, w1, t1)
    | (OutOfFuel, w1, t1) => (OutOfFuel, w1, t1)
    end.
Proof. reflexivity. Qed.

Lemma bind_Returned {A B} (m : M A) (f : A → M B) w b w2 t :
  (m ≫= f) w = (Returned b, w2, t) →
  ∃ a w1 t1 t2,
    m w = (Returned a, w1, t1) ∧ f a w1 = (Returned b, w2, t2) ∧ t = t1 ++ t2.
Proof.
  rewrite bind_run. destruct (m w) as [[[a|e|] w1] t1]; try discriminate.
  destruct (f a w1) as [[o w3] t2] eqn:Hf. intros [= -> -> <-].
  by exists a, w1, t1, t2.
Qed.

Lemma bind_Returned_run {A B} (m : M A) (f : A → M B) w a w1 t1 :
  m w = (Returned a, w1, t1) →
  (m ≫= f) w = match f a w1 with (o, w2, t2) => (o, w2, t1 ++ t2) end.
Proof. intros Hm. by rewrite bind_run, Hm. Qed.

Lemma bind_Raised_run {A B} (m : M A) (f : A → M B) w e w1 t1 :
  m w = (Raised e, w1, t1) → (m ≫= f) w = (Raised e, w1, t1).
Proof. intros Hm. by rewrite bind_run, Hm. Qed.

Lemma mret_Returned {A} (a b : A) (w w1 : World) t :
  (mret a : M A) w = (Returned b, w1, t) → b = a ∧ w1 = w ∧ t = [].
Proof. by intros [= -> -> <-]. Qed.

Lemma lift_Returned {A} (r : result A) (w w1 : World) a t :
  lift r w = (Returned a, w1, t) → r = inr a ∧ w1 = w ∧ t = [].
Proof. destruct r; [discriminate|]. by intros [= -> -> <-]. Qed.

Lemma host_call_run c w :
  host_call host c w =
    (match (host c w).1 with
     | inl e => Raised e
     | inr v => Returned v
     end, (host c w).2, [Ev c (host c w).1]).
Proof. unfold host_call. by destruct (host c w). Qed.

Lemma host_call_Returned c w v w1 t :
  host_call host c w = (Returned v, w1, t) →
  host c w = (inr v, w1) ∧ t = [Ev c (inr v)].
Proof.
  rewrite host_call_run. destruct (host c w) as [[e|v0] w0]; simpl; [discriminate|].
  by intros [= -> -> <-].
Qed.

Lemma host_call_answered c w v w1 :
  host c w = (inr v, w1) → host_call host c w = (Returned v, w1, [Ev c (inr v)]).
Proof. intros H. by rewrite host_call_run, H. Qed.

Lemma bind_host_call {B} c (f : resp c → M B) w v w1 :
  host c w = (inr v, w1) →
  (host_call host c ≫= f) w
  = match f v w1 with (o, w2, t2) => (o, w2, Ev c (inr v) :: t2) end.
Proof. intros H. by rewrite bind_run, host_call_run, H. Qed.

Lemma bind_lift {A B} (f : A → M B) (w : World) a :
  (lift (inr a) ≫= f) w = f a w.
Proof. rewrite bind_run. simpl. by destruct (f a w) as [[??]?]. Qed.

End RunFacts.

(** Takes apart a run that returned, one bind at a time. *)
Ltac invert_run_step :=
  match goal with
  | H : (_ ≫= _) _ = (Returned _, _, _) |- _ =>
      let a := fresh "a" in let w := fresh "w" in
      let t1 := fresh "t" in let t2 := fresh "t" in
      let H1 := fresh "Hrun" in
      apply bind_Returned in H as (a & w & t1 & t2 & H1 & H & ->)
  | H : host_call ?h ?c ?w = (Returned ?v, ?w1, ?t) |- _ =>
      let Hh := fresh "Hhost" in
      apply (host_call_Returned h c w v w1 t) in H as [Hh ->]
  | H : lift _ _ = (Returned _, _, _) |- _ =>
      let Hl := fresh "Hlift" in
      apply lift_Returned in H as (Hl & -> & ->)
  | H : mret _ _ = (Returned _, _, _) |- _ =>
      apply mret_Returned in H as (-> & -> & ->)
  end.

Ltac invert_run := repeat invert_run_step.

(** Runs the next host call of the goal with the answer [H] records. *)
Ltac run_call H :=
  cbn [ev_call ev_resp] in H;
  match type of H with
  | (?h ?c ?w).1 = inr ?v =>
      first [ rewrite (bind_host_call h c _ w v _ (pair_eta H))
            | rewrite (host_call_answered h c w v _ (pair_eta H)) ]
  end.

(** ** Failures of the host *)

Section Propagation.
Context {World : Type}.
Variable host : @Host World.
Abbreviation M := (@M World).

Lemma steps_app w t1 w1 t2 w2 :
  steps host w t1 w1 → steps host w1 t2 w2 → steps host w (t1 ++ t2) w2.
Proof.
  revert w. induction t1 as [|ev t1 IH]; simpl; intros w.
  - by intros ->.
  - intros [Hev Hrest] H2. split; [done|]. by apply IH.
Qed.

Lemma steps_app_inv w t1 t2 w2 :
  steps host w (t1 ++ t2) w2 → ∃ w1, steps host w t1 w1 ∧ steps host w1 t2 w2.
Proof.
  revert w. induction t1 as [|ev t1 IH]; simpl; intros w.
  - intros H. by exists w.
  - intros [Hev (w1 & H1 & H2)%IH]. by exists w1.
Qed.

Lemma steps_one c w : steps host w [Ev c (host c w).1] (host c w).2.
Proof. by simpl. Qed.

Lemma aborts_nil {A} (o : outcome A) : aborts_on_failure o [].
Proof. intros [|??] ????; discriminate. Qed.

(** A run that returned saw no failure. *)
Lemma Returned_no_failure {A} (a : A) t ev :
  aborts_on_failure (Returned a) t → ev ∈ t → ev_failure ev = None.
Proof.
  intros Hab (t0 & t1 & ->)%list_elem_of_split.
  destruct (ev_failure ev) as [e|] eqn:He; [|done].
  by destruct (Hab _ _ _ _ eq_refl He) as [_ ?].
Qed.

Lemma aborts_app {A B} (a : A) (o : outcome B) t1 t2 :
  aborts_on_failure (Returned a) t1 → aborts_on_failure o t2 →
  aborts_on_failure o (t1 ++ t2).
Proof.
  intros H1 H2 t0 ev tl e Heq Hev.
  apply app_eq_app in Heq as [l [[-> Hl]|[-> ->]]].
  - destruct l as [|ev1 l]; simpl in Hl.
    + subst t2. by apply (H2 [] ev tl e).
    + injection Hl as <- ->.
      assert (ev_failure ev = None) as Hnone; [|congruence].
      apply (Returned_no_failure a (t0 ++ ev :: l)); [done|].
      apply elem_of_app. right. by left.
  - by apply (H2 l ev tl e).
Qed.

Lemma propagates_mret {A} (a : A) : propagates host (mret a : M A).
Proof. intros w o w1 t [= <- <- <-]. split; [done|apply aborts_nil]. Qed.

Lemma propagates_lift {A} (r : result A) : propagates host (lift r).
Proof.
  intros w o w1 t. destruct r; intros [= <- <- <-];
    (split; [done|apply aborts_nil]).
Qed.

Lemma propagates_out_of_fuel {A} : propagates host (@out_of_fuel World A).
Proof. intros w o w1 t [= <- <- <-]. split; [done|apply aborts_nil]. Qed.

Lemma propagates_host_call c : propagates host (host_call host c).
Proof.
  intros w o w1 t. rewrite host_call_run. intros [= <- <- <-].
  split; [apply steps_one|].
  intros t0 ev tl e Heq Hev. destruct t0 as [|? [|??]]; try discriminate.
  injection Heq as <- <-. split; [done|].
  unfold ev_failure in Hev. simpl in Hev.
  destruct (host c w).1; [by injection Hev as ->|discriminate].
Qed.

Lemma propagates_bind {A B} (m : M A) (f : A → M B) :
  propagates host m → (∀ a, propagates host (f a)) → propagates host (m ≫= f).
Proof.
  intros Hm Hf w o w2 t. rewrite bind_run.
  destruct (m w) as [[[a|e|] w1] t1] eqn:Em; destruct (Hm _ _ _ _ Em) as [Hs Ha].
  - destruct (f a w1) as [[o2 w3] t2] eqn:Ef. intros [= <- <- <-].
    destruct (Hf _ _ _ _ _ Ef). split; [by eapply steps_app|by eapply aborts_app].
  - intros [= <- <- <-]. split; [done|].
    intros t0 ev tl e0 Heq Hev. destruct (Ha _ _ _ _ Heq Hev) as [? [= ->]]. done.
  - intros [= <- <- <-]. split; [done|].
    intros t0 ev tl e0 Heq Hev. by destruct (Ha _ _ _ _ Heq Hev) as [? [=]].
Qed.

Lemma propagates_for_each {A} (xs : list A) (body : A → M unit) :
  (∀ x, propagates host (body x)) → propagates host (for_each xs body).
Proof.
  intros Hbody. induction xs as [|x xs IH]; simpl.
  - apply propagates_mret.
  - apply propagates_bind; [apply Hbody|by intros _].
Qed.

Lemma propagates_comprehension {A B} (xs : list A) (f : A → M B) :
  (∀ x, propagates host (f x)) → propagates host (comprehension xs f).
Proof.
  intros Hf. induction xs as [|x xs IH]; simpl.
  - apply propagates_mret.
  - apply propagates_bind; [apply Hf|intros y].
    apply propagates_bind; [apply IH|intros ys]. apply propagates_mret.
Qed.

Lemma propagates_while fuel (cond : M bool) (body : M unit) :
  propagates host cond → propagates host body →
  propagates host (while fuel cond body).
Proof.
  intros Hcond Hbody. induction fuel as [|fuel IH]; simpl.
  - apply propagates_out_of_fuel.
  - apply propagates_bind; [done|intros [|]].
    + apply propagates_bind; [done|by intros _].
    + apply propagates_mret.
Qed.

End Propagation.

(** Walks through a host program, one bind at a time. *)
Ltac propagation_step :=
  first
    [ match goal with
      | |- propagates ?h (host_call ?h ?c) => exact (propagates_host_call h c)
      | |- propagates _ (let '(_, _) := ?x in _) => destruct x
      end
    | apply propagates_mret
    | apply propagates_lift
    | apply propagates_for_each; intros
    | apply propagates_comprehension; intros
    | apply propagates_while
    | apply propagates_bind; [|intros] ].

Ltac propagation := repeat propagation_step.

(** ** The functions of the module *)

Section PlotsFacts.
Context {World : Type}.
Variable host : @Host World.
Variable RGB_to_XYZ :
  ndarray → xy → option xy → ndarray → string → (float → float) → result ndarray.
Variable XYZ_to_Lab : ndarray → xy → result ndarray.
Variable ILLUMINANTS : gmap string (gmap string xy).

Abbreviation RGB_to_Lab' := (RGB_to_Lab RGB_to_XYZ XYZ_to_Lab ILLUMINANTS).
Abbreviation Lab_colourspace_cube' :=
  (Lab_colourspace_cube host RGB_to_XYZ XYZ_to_Lab ILLUMINANTS).

(** *** [RGB_to_Lab] *)

(** C1. With the observer ['CIE 1931 2 Degree Standard Observer'] in the
    library's [ILLUMINANTS], [RGB_to_Lab(RGB, colourspace)] is
    [XYZ_to_Lab] of [RGB_to_XYZ], for every RGB value and colourspace: the
    first transform gets [np.array(RGB)], the colourspace's whitepoint, the
    observer's ['E'] entry, the colourspace's [to_XYZ], ['Bradford'] and the
    colourspace's inverse transfer function, the second gets the first one's
    result and the whitepoint; an exception of the first transform is the
    result, and nothing else happens to the value. *)
Theorem RGB_to_Lab_composition RGB colourspace illuminants :
  ILLUMINANTS !! "CIE 1931 2 Degree Standard Observer" = Some illuminants →
  RGB_to_Lab' RGB colourspace =
    match RGB_to_XYZ (np_array RGB)
                     (whitepoint colourspace)
                     (illuminants !! "E")
                     (to_XYZ colourspace)
                     "Bradford"
                     (inverse_transfer_function colourspace) with
    | inr XYZ => XYZ_to_Lab XYZ (whitepoint colourspace)
    | inl e => inl e
    end.
Proof.
  intros Hobs. unfold RGB_to_Lab, ILLUMINANTS_get_get. rewrite Hobs.
  reflexivity.
Qed.

(** *** [set_attributes] *)

(** The loop of [set_attributes] over entries the host accepts. *)
Lemma set_attributes_loop_accepted (entries : list (string * value)) w :
  (∀ entry w0, entry ∈ entries → (host (setAttr_call entry) w0).1 = inr ()) →
  ∃ w1,
    for_each entries (λ '(attribute, value),
      host_call host (cmds setAttr [VStr attribute; value] [])) w
    = (Returned (), w1, setAttr_event <$> entries).
Proof.
  revert w. induction entries as [|[a v] entries IH]; intros w Hok.
  - by exists w.
  - simpl. rewrite bind_run, host_call_run.
    pose proof (Hok (a, v) w (list_elem_of_here _ _)) as Hav.
    unfold setAttr_call in Hav. simpl in Hav.
    destruct (host (cmds setAttr [VStr a; v] []) w) as [r w0] eqn:Hh.
    simpl in *. subst r.
    destruct (IH w0) as [w1 ->].
    { intros entry w2 Hin. apply Hok. by right. }
    by exists w1.
Qed.

(** The calls of the loop are sets of the entries, in their order, up to
    the first one that fails. *)
Lemma set_attributes_loop_calls (entries : list (string * value)) w :
  let t := (for_each entries (λ '(attribute, value),
              host_call host (cmds setAttr [VStr attribute; value] [])) w).2 in
  ev_call <$> t = take (length t) (setAttr_call <$> entries).
Proof.
  revert w. induction entries as [|[a v] entries IH]; intros w; [done|].
  simpl. rewrite bind_run, host_call_run.
  destruct (host (cmds setAttr [VStr a; v] []) w) as [[e|[]] w0]; [done|].
  simpl. specialize (IH w0). simpl in IH.
  destruct (for_each entries _ w0) as [[o w1] t1]. simpl in *.
  by rewrite IH at 1.
Qed.

#[local] Instance setAttr_event_inj : Inj (=) (=) setAttr_event.
Proof.
  intros [a1 v1] [a2 v2] Heq. apply (f_equal ev_call) in Heq.
  by injection Heq as -> ->.
Qed.

(** C3. Every mapping is the dict of a display [entries] (of its own
    items, for one).  On a host that accepts the set of every entry of the
    mapping, [set_attributes] returns [True] and its host calls are exactly
    [cmds.setAttr(attribute, value)], once for each entry of the mapping, in
    the mapping's order, and nothing else: for a display of distinct keys
    that is the order of the display.  For the empty mapping there is no
    host call and the world is untouched. *)
Theorem set_attributes_one_call_per_entry (entries : list (string * value)) w :
  (∀ a v w0, get (dict entries) a = Some v →
             (host (setAttr_call (a, v)) w0).1 = inr ()) →
  ∃ w1 t,
    set_attributes host (dict entries) w = (Returned true, w1, t)
    ∧ t = setAttr_event <$> items (dict entries)
    ∧ length t = length (keys (dict entries))
    ∧ NoDup t
    ∧ (∀ a v, setAttr_event (a, v) ∈ t ↔ get (dict entries) a = Some v)
    ∧ (NoDup entries.*1 → t = setAttr_event <$> entries)
    ∧ (entries = [] → t = [] ∧ w1 = w).
Proof.
  intros Hok. pose proof (dict_NoDup entries) as Hkeys.
  destruct (set_attributes_loop_accepted (items (dict entries)) w) as [w1 Hloop].
  { intros [a v] w0 Hin. apply Hok. by apply get_Some. }
  exists w1, (setAttr_event <$> items (dict entries)). split_and!.
  - unfold set_attributes. rewrite bind_run, Hloop. simpl. by rewrite app_nil_r.
  - done.
  - unfold keys, items. by rewrite !length_fmap.
  - apply (NoDup_fmap_2 setAttr_event). by apply NoDup_fmap_1 in Hkeys.
  - intros a v. rewrite (list_elem_of_fmap_inj setAttr_event).
    symmetry. by apply get_Some.
  - intros Hd. by rewrite dict_distinct.
  - intros ->. simpl in Hloop. split; [done|]. by injection Hloop as <-.
Qed.

(** *** Failures of the host *)

Lemma propagates_get_dag_path node : propagates host (get_dag_path host node).
Proof. unfold get_dag_path. propagation. Qed.

Lemma propagates_get_mpoint point : propagates host (get_mpoint host point).
Proof. unfold get_mpoint. propagation. Qed.

Lemma propagates_get_shapes object full_path no_intermediate :
  propagates host (get_shapes host object full_path no_intermediate).
Proof. unfold get_shapes. cbv zeta. propagation. Qed.

Lemma propagates_set_attributes attributes :
  propagates host (set_attributes host attributes).
Proof.
  unfold set_attributes. propagation.
Qed.

Lemma propagates_RGB_identity_cube name density :
  propagates host (RGB_identity_cube host name density).
Proof.
  unfold RGB_identity_cube.
  repeat first
    [ apply propagates_set_attributes | apply propagates_get_shapes
    | apply propagates_get_dag_path | propagation_step ].
Qed.

Lemma propagates_Lab_colourspace_cube fuel colourspace density :
  propagates host (Lab_colourspace_cube' fuel colourspace density).
Proof.
  unfold Lab_colourspace_cube.
  repeat first
    [ apply propagates_RGB_identity_cube | apply propagates_set_attributes
    | apply propagates_get_mpoint | apply propagates_get_dag_path
    | propagation_step ].
Qed.

Lemma propagates_Lab_coordinates_system_representation :
  propagates host (Lab_coordinates_system_representation host).
Proof.
  unfold Lab_coordinates_system_representation.
  repeat first [ apply propagates_set_attributes | propagation_step ].
Qed.

(** C4. In every function of the module a host call that raises ends the
    run: its exception is the outcome, as the host raised it, no host call
    follows it, and the world is the one the host left after the calls made
    so far.  In [set_attributes] the calls made are sets of the mapping's
    entries, in the mapping's order, each once: the entries before the
    failing one stay set, none is set again or reset. *)
Theorem host_failure_aborts :
  (∀ attributes w o w1 t,
     set_attributes host attributes w = (o, w1, t) →
     steps host w t w1
     ∧ aborts_on_failure o t
     ∧ ev_call <$> t = take (length t) (setAttr_call <$> items attributes))
  ∧ (∀ node, propagates host (get_dag_path host node))
  ∧ (∀ point, propagates host (get_mpoint host point))
  ∧ (∀ object full_path no_intermediate,
       propagates host (get_shapes host object full_path no_intermediate))
  ∧ (∀ name density, propagates host (RGB_identity_cube host name density))
  ∧ (∀ fuel colourspace density,
       propagates host (Lab_colourspace_cube' fuel colourspace density))
  ∧ propagates host (Lab_coordinates_system_representation host).
Proof.
  split_and!.
  - intros attributes w o w1 t Hrun.
    destruct (propagates_set_attributes attributes _ _ _ _ Hrun) as [Hs Ha].
    split_and!; [done..|].
    pose proof (set_attributes_loop_calls (items attributes) w) as Hcalls.
    unfold set_attributes in Hrun. rewrite bind_run in Hrun. simpl in Hcalls.
    destruct (for_each (items attributes) _ w) as [[[[]|e|] w0] t0];
      simpl in *; injection Hrun as <- <- <-; by rewrite ?app_nil_r.
  - apply propagates_get_dag_path.
  - apply propagates_get_mpoint.
  - apply propagates_get_shapes.
  - apply propagates_RGB_identity_cube.
  - apply propagates_Lab_colourspace_cube.
  - apply propagates_Lab_coordinates_system_representation.
Qed.

(** *** The host queries *)

Lemma get_dag_path_answered node w selection_list dag_path w1 :
  steps host w (get_dag_path_events node selection_list dag_path) w1 →
  get_dag_path host node w
  = (Returned dag_path, w1, get_dag_path_events node selection_list dag_path).
Proof.
  simpl. intros (H1 & H2 & H3 & H4 & ->). unfold get_dag_path.
  rewrite (bind_host_call host MSelectionList _ w selection_list _ (pair_eta H1)).
  rewrite (bind_host_call host (MSelectionList_add _ _) _ _ () _ (pair_eta H2)).
  rewrite (bind_host_call host MDagPath _ _ dag_path _ (pair_eta H3)).
  rewrite (bind_host_call host (MSelectionList_getDagPath _ _ _) _ _ () _ (pair_eta H4)).
  reflexivity.
Qed.

Lemma get_mpoint_answered x y z rest w p w1 :
  host (MPoint_new x y z) w = (inr p, w1) →
  get_mpoint host (x :: y :: z :: rest) w
  = (Returned p, w1, [Ev (MPoint_new x y z) (inr p)]).
Proof.
  intros H. unfold get_mpoint.
  change (tuple_getitem (x :: y :: z :: rest) 0) with (inr x : result item).
  change (tuple_getitem (x :: y :: z :: rest) 1) with (inr y : result item).
  change (tuple_getitem (x :: y :: z :: rest) 2) with (inr z : result item).
  rewrite !bind_lift. exact (host_call_answered host _ _ _ _ H).
Qed.

Lemma get_shapes_answered object full_path no_intermediate w shapes w1 :
  host (listRelatives_shapes object full_path no_intermediate) w = (inr shapes, w1) →
  get_shapes host object full_path no_intermediate w
  = (Returned (default [] shapes), w1,
     [Ev (listRelatives_shapes object full_path no_intermediate) (inr shapes)]).
Proof.
  intros H. unfold get_shapes. cbv zeta. rewrite bind_run, host_call_run.
  unfold listRelatives_shapes in H. rewrite H. by destruct shapes.
Qed.

(** C6, as the code has it.  [get_dag_path] and [get_mpoint] pass the
    host's answer through: [get_dag_path(node)] returns the [MDagPath] the
    host filled by [getDagPath(0, ...)] on a selection list holding [node],
    and [get_mpoint(point)], for a point of at least three components,
    returns the host's [MPoint] of the first three.  [get_shapes] returns the
    host's [listRelatives] answer when it is a list, and the empty list when
    it is [None]. *)
Theorem host_queries_pass_through :
  (∀ node w selection_list dag_path w1,
     steps host w (get_dag_path_events node selection_list dag_path) w1 →
     get_dag_path host node w
     = (Returned dag_path, w1, get_dag_path_events node selection_list dag_path))
  ∧ (∀ x y z rest w p w1,
       host (MPoint_new x y z) w = (inr p, w1) →
       get_mpoint host (x :: y :: z :: rest) w
       = (Returned p, w1, [Ev (MPoint_new x y z) (inr p)]))
  ∧ (∀ object full_path no_intermediate w shapes w1,
       host (listRelatives_shapes object full_path no_intermediate) w
       = (inr shapes, w1) →
       get_shapes host object full_path no_intermediate w
       = (Returned (match shapes with Some shapes => shapes | None => [] end), w1,
          [Ev (listRelatives_shapes object full_path no_intermediate) (inr shapes)])).
Proof.
  split_and!.
  - apply get_dag_path_answered.
  - apply get_mpoint_answered.
  - apply get_shapes_answered.
Qed.

(** C10. When the host's [listRelatives] answers [None], [get_shapes]
    returns the empty list, whatever the object and the two flags; when it
    answers a list, that list.  The value returned is a list in both
    cases. *)
Theorem get_shapes_never_None object full_path no_intermediate w w1 shapes :
  host (listRelatives_shapes object full_path no_intermediate) w = (inr shapes, w1) →
  ∃ object_shapes : list string,
    (get_shapes host object full_path no_intermediate w).1.1 = Returned object_shapes
    ∧ names_value (Some object_shapes) ≠ VNone
    ∧ (shapes = None → object_shapes = [])
    ∧ (∀ l, shapes = Some l → object_shapes = l).
Proof.
  intros H. rewrite (get_shapes_answered _ _ _ _ _ _ H).
  exists (default [] shapes). split_and!; [done|done|by intros ->|by intros l ->].
Qed.

(** *** Runs that returned *)

Lemma set_attributes_loop_Returned (entries : list (string * value)) w u w1 t :
  for_each entries (λ '(attribute, value),
    host_call host (cmds setAttr [VStr attribute; value] [])) w
  = (Returned u, w1, t) →
  t = setAttr_event <$> entries.
Proof.
  revert w t. induction entries as [|[a v] entries IH]; intros w t; simpl.
  - by intros [= _ _ <-].
  - intros H. invert_run. destruct a0. by rewrite (IH _ _ H).
Qed.

Lemma set_attributes_Returned attributes w b w1 t :
  set_attributes host attributes w = (Returned b, w1, t) →
  b = true ∧ t = setAttr_event <$> items attributes.
Proof.
  unfold set_attributes. intros H. invert_run.
  apply set_attributes_loop_Returned in Hrun as ->. by rewrite app_nil_r.
Qed.

Lemma get_shapes_Returned object full_path no_intermediate w l w1 t :
  get_shapes host object full_path no_intermediate w = (Returned l, w1, t) →
  ∃ shapes,
    l = default [] shapes
    ∧ t = [Ev (listRelatives_shapes object full_path no_intermediate) (inr shapes)].
Proof.
  unfold get_shapes. cbv zeta. intros H. invert_run.
  exists a. by destruct a.
Qed.

Lemma get_dag_path_Returned node w dag_path w1 t :
  get_dag_path host node w = (Returned dag_path, w1, t) →
  ∃ selection_list, t = get_dag_path_events node selection_list dag_path.
Proof.
  unfold get_dag_path. intros H. invert_run.
  destruct a0, a2. by exists a.
Qed.

Lemma getitem_inr {A} (xs : list A) i x : getitem xs i = inr x → xs !! i = Some x.
Proof. unfold getitem. destruct (xs !! i); [|done]. by intros [= ->]. Qed.

Lemma tuple_getitem_inr {A} (t : list A) i x :
  tuple_getitem t i = inr x → t !! i = Some x.
Proof. unfold tuple_getitem. destruct (t !! i); [|done]. by intros [= ->]. Qed.

Lemma getitem_head {A} (xs : list A) x :
  getitem xs 0 = inr x → ∃ rest, xs = x :: rest.
Proof. intros H%getitem_inr. destruct xs; [done|]. injection H as ->. eauto. Qed.

Lemma getitem_cons {A} (x : A) xs : getitem (x :: xs) 0 = inr x.
Proof. reflexivity. Qed.

Lemma default_cons {A} (o : option (list A)) x rest :
  default [] o = x :: rest → o = Some (x :: rest).
Proof. destruct o; simpl; [by intros ->|done]. Qed.

Lemma get_mpoint_Returned point w p w1 t :
  get_mpoint host point w = (Returned p, w1, t) →
  ∃ x y z rest,
    point = x :: y :: z :: rest ∧ t = [Ev (MPoint_new x y z) (inr p)].
Proof.
  unfold get_mpoint. intros H. invert_run.
  apply tuple_getitem_inr in Hlift, Hlift0, Hlift1.
  destruct point as [|x [|y [|z rest]]]; simplify_eq/=.
  by exists a, a0, a1, rest.
Qed.

(** *** [RGB_identity_cube] *)

Lemma colour_loop_Returned pa ca ia start n w u w1 t :
  for_each (seq start n) (λ i,
    p0 ← host_call host (MPointArray_getitem pa i);
    p1 ← host_call host (MPointArray_getitem pa i);
    p2 ← host_call host (MPointArray_getitem pa i);
    host_call host (MColorArray_append ca (mp_x p0) (mp_y p1) (mp_z p2));;
    host_call host (MIntArray_append ia i)) w
  = (Returned u, w1, t) →
  ∃ reads,
    length reads = n
    ∧ t = concat (zip_with (colour_events pa ca ia) (seq start n) reads).
Proof.
  revert start w t. induction n as [|n IH]; intros start w t; simpl.
  - intros [= _ _ <-]. by exists [].
  - intros H. invert_run.
    repeat match goal with u : () |- _ => destruct u end.
    destruct (IH _ _ _ H) as (reads & <- & ->).
    eexists ((_, _, _) :: reads). split; reflexivity.
Qed.

(** Takes apart the runs of the module's own functions. *)
Ltac invert_calls :=
  repeat match goal with
    | u : () |- _ => destruct u
    | u : resp ?c |- _ =>
        lazymatch eval cbv in (resp c) with unit => destruct u end
    | H : set_attributes _ _ _ = (Returned _, _, _) |- _ =>
        apply set_attributes_Returned in H as [-> ->]
    | H : get_shapes _ _ _ _ _ = (Returned _, _, _) |- _ =>
        let shapes := fresh "shapes" in
        apply get_shapes_Returned in H as (shapes & -> & ->)
    | H : get_dag_path _ _ _ = (Returned _, _, _) |- _ =>
        let sl := fresh "sl" in
        apply get_dag_path_Returned in H as [sl ->]
    | H : get_mpoint _ _ _ = (Returned _, _, _) |- _ =>
        apply get_mpoint_Returned in H as (? & ? & ? & ? & ? & ->)
    | H : for_each (seq _ _) _ _ = (Returned _, _, _) |- _ =>
        let reads := fresh "reads" in
        apply colour_loop_Returned in H as (reads & <- & ->)
    end.

Lemma RGB_identity_cube_Returned name density w v w1 t :
  RGB_identity_cube host name density w = (Returned v, w1, t) →
  ∃ a, v = new_name a ∧ t = RGB_identity_cube_events name density a.
Proof.
  unfold RGB_identity_cube. intros H. invert_run. invert_calls.
  repeat match goal with
    | H : getitem (default [] _) 0 = inr _ |- _ =>
        apply getitem_head in H as [? ->%default_cons]
    | H : getitem _ 0 = inr _ |- _ => apply getitem_head in H as [? ->]
    end.
  eexists (CubeAnswers _ _ _ _ _ _ _ _ _ _ _ _). split; [reflexivity|].
  unfold RGB_identity_cube_events, cube_setup_events, cube_colour_events,
    cube_finish_events, cube_translation. simpl.
  rewrite <-?app_assoc. simpl. reflexivity.
Qed.

(** The other direction: when the host answers as in the trace, the run
    returns with that trace. *)
Lemma set_attributes_loop_answered (entries : list (string * value)) w w1 :
  steps host w (setAttr_event <$> entries) w1 →
  for_each entries (λ '(attribute, value),
    host_call host (cmds setAttr [VStr attribute; value] [])) w
  = (Returned (), w1, setAttr_event <$> entries).
Proof.
  revert w. induction entries as [|[a v] entries IH]; simpl; intros w.
  - by intros ->.
  - intros [H1 Hs].
    change (setAttr_call (a, v)) with (cmds setAttr [VStr a; v] []) in H1, Hs.
    run_call H1. by rewrite (IH _ Hs).
Qed.

Lemma set_attributes_answered attributes w w1 :
  steps host w (setAttr_event <$> items attributes) w1 →
  set_attributes host attributes w
  = (Returned true, w1, setAttr_event <$> items attributes).
Proof.
  intros Hs. unfold set_attributes.
  rewrite (bind_Returned_run _ _ _ _ _ _ (set_attributes_loop_answered _ _ _ Hs)).
  simpl. by rewrite app_nil_r.
Qed.

Lemma colour_loop_answered pa ca ia start reads w w1 :
  steps host w
    (concat (zip_with (colour_events pa ca ia) (seq start (length reads)) reads)) w1 →
  for_each (seq start (length reads)) (λ i,
    p0 ← host_call host (MPointArray_getitem pa i);
    p1 ← host_call host (MPointArray_getitem pa i);
    p2 ← host_call host (MPointArray_getitem pa i);
    host_call host (MColorArray_append ca (mp_x p0) (mp_y p1) (mp_z p2));;
    host_call host (MIntArray_append ia i)) w
  = (Returned (), w1,
     concat (zip_with (colour_events pa ca ia) (seq start (length reads)) reads)).
Proof.
  revert start w. induction reads as [|[[p0 p1] p2] reads IH]; simpl; intros start w.
  - by intros ->.
  - intros (H0 & H1 & H2 & H3 & H4 & Hs).
    rewrite bind_run. run_call H0. run_call H1. run_call H2. run_call H3.
    run_call H4. specialize (IH _ _ Hs). simpl in IH. by rewrite IH.
Qed.

Lemma RGB_identity_cube_answered name density a w w1 :
  steps host w (RGB_identity_cube_events name density a) w1 →
  RGB_identity_cube host name density w
  = (Returned (new_name a), w1, RGB_identity_cube_events name density a).
Proof.
  unfold RGB_identity_cube_events, cube_setup_events, cube_colour_events,
    cube_finish_events.
  intros Hs. rewrite <-!app_assoc in Hs.
  apply steps_app_inv in Hs as (w2 & [H1 ->] & Hs).
  apply steps_app_inv in Hs as (w3 & Hset & Hs).
  apply steps_app_inv in Hs as (w4 & (H2 & H3 & H4 & H5 & H6 & ->) & Hs).
  apply steps_app_inv in Hs as (w5 & Hdag & Hs).
  apply steps_app_inv in Hs as (w6 & (H7 & H8 & H9 & ->) & Hs).
  apply steps_app_inv in Hs as (w7 & Hloop & (H10 & H11 & H12 & H13 & ->)).
  unfold RGB_identity_cube.
  run_call H1. rewrite getitem_cons, bind_lift.
  rewrite (bind_Returned_run _ _ _ _ _ _ (set_attributes_answered _ _ _ Hset)).
  run_call H2. run_call H3. run_call H4. run_call H5.
  rewrite (bind_Returned_run _ _ _ _ _ _ (get_shapes_answered _ _ _ _ _ _ (pair_eta (H6 : (host _ _).1 = inr _)))).
  simpl default. rewrite getitem_cons, bind_lift.
  rewrite (bind_Returned_run _ _ _ _ _ _ (get_dag_path_answered _ _ _ _ _ Hdag)).
  run_call H7. run_call H8. run_call H9.
  rewrite (bind_Returned_run _ _ _ _ _ _ (colour_loop_answered _ _ _ _ _ _ _ Hloop)).
  run_call H10. run_call H11. run_call H12. run_call H13.
  simpl. by rewrite <-!app_assoc.
Qed.

(** What the pieces of the trace append. *)
Lemma colours_appended_app t1 t2 :
  colours_appended (t1 ++ t2) = colours_appended t1 ++ colours_appended t2.
Proof. apply omap_app. Qed.

Lemma indices_appended_app t1 t2 :
  indices_appended (t1 ++ t2) = indices_appended t1 ++ indices_appended t2.
Proof. apply omap_app. Qed.

Lemma setAttr_events_append_nothing (entries : list (string * value)) :
  colours_appended (setAttr_event <$> entries) = []
  ∧ indices_appended (setAttr_event <$> entries) = [].
Proof. induction entries as [|? ? [IH1 IH2]]; [done|]. by split. Qed.

Lemma colour_loop_appends pa ca ia start reads :
  let t := concat (zip_with (colour_events pa ca ia)
                     (seq start (length reads)) reads) in
  colours_appended t = (λ '(p0, p1, p2), (mp_x p0, mp_y p1, mp_z p2)) <$> reads
  ∧ indices_appended t = seq start (length reads).
Proof.
  revert start. induction reads as [|[[p0 p1] p2] reads IH]; intros start; [done|].
  destruct (IH (S start)) as [IH1 IH2]. simpl in *.
  unfold colours_appended, indices_appended in *. simpl.
  by rewrite IH1, IH2.
Qed.

(** C9. In a run of [RGB_identity_cube] that returns, [n] being the length
    the host reports for the point array it filled in world space, the loop
    runs once for each index [i] from [0] to [n-1]: it reads [point_array[i]]
    for its first, second and third component, appends a colour of these
    three components and appends [i] to the index array.  So the colours
    appended are, in order, the coordinates of the points read, the indices
    appended are [0, 1, ..., n-1], and the two arrays go to
    [setVertexColors].  A host that answers as in such a trace makes the
    function return. *)
Theorem RGB_identity_cube_colours_are_positions name density w :
  (∀ v w1 t,
     RGB_identity_cube host name density w = (Returned v, w1, t) →
     ∃ a,
       t = RGB_identity_cube_events name density a
       ∧ colours_appended t
         = (λ '(p0, p1, p2), (mp_x p0, mp_y p1, mp_z p2)) <$> point_reads a
       ∧ indices_appended t = seq 0 (length (point_reads a))
       ∧ (∀ i p, point_reads a !! i = Some (p, p, p) →
            colours_appended t !! i = Some (mp_x p, mp_y p, mp_z p)
            ∧ indices_appended t !! i = Some i))
  ∧ (∀ a w1,
       steps host w (RGB_identity_cube_events name density a) w1 →
       RGB_identity_cube host name density w
       = (Returned (new_name a), w1, RGB_identity_cube_events name density a)).
Proof.
  split; [|intros a w1; apply RGB_identity_cube_answered].
  intros v w1 t (a & -> & ->)%RGB_identity_cube_Returned. exists a.
  assert (colours_appended (RGB_identity_cube_events name density a)
          = (λ '(p0, p1, p2), (mp_x p0, mp_y p1, mp_z p2)) <$> point_reads a
          ∧ indices_appended (RGB_identity_cube_events name density a)
            = seq 0 (length (point_reads a))) as [Hc Hi].
  { unfold RGB_identity_cube_events, cube_setup_events, cube_colour_events.
    destruct (setAttr_events_append_nothing
                (items (cube_translation (poly_cube a)))) as [Hc Hi].
    destruct (colour_loop_appends (point_array a) (colour_array a) (index_array a)
                0 (point_reads a)) as [Hc1 Hi1].
    rewrite !colours_appended_app, !indices_appended_app, Hc, Hi, Hc1, Hi1.
    simpl. by rewrite !app_nil_r. }
  split_and!; [done..|].
  intros i p Hp. rewrite Hc, Hi, list_lookup_fmap, Hp. split; [done|].
  apply lookup_seq. split; [done|]. by eapply lookup_lt_Some.
Qed.

(** *** [Lab_colourspace_cube] *)

Abbreviation Lab_of_position' := (Lab_of_position RGB_to_XYZ XYZ_to_Lab ILLUMINANTS).

(** A flattened array is a tuple of numbers: its elements, in row-major
    order. *)
Lemma tuple_ravel (a : ndarray) : tuple (np_ravel a) = inr (Number <$> data a).
Proof. reflexivity. Qed.

Lemma Lab_of_position_inr colourspace position Lab l a b rest :
  RGB_to_Lab' [mp_x position; mp_y position; mp_z position] colourspace = inr Lab →
  data Lab = l :: a :: b :: rest →
  Lab_of_position' colourspace position = inr (numbers (l, a, b)).
Proof.
  unfold Lab_of_position. intros -> Hdata. unfold mbind, result_bind.
  by rewrite tuple_ravel, Hdata.
Qed.

Lemma Lab_of_position_inv colourspace position l a b :
  Lab_of_position' colourspace position = inr (numbers (l, a, b)) →
  ∃ Lab rest,
    RGB_to_Lab' [mp_x position; mp_y position; mp_z position] colourspace = inr Lab
    ∧ data Lab = l :: a :: b :: rest.
Proof.
  unfold Lab_of_position.
  destruct (RGB_to_Lab' _ colourspace) as [e|Lab]; simpl; [done|].
  destruct (data Lab) as [|x [|y [|z rest]]] eqn:E; simpl; try done.
  intros [= -> -> ->]. by exists Lab, rest.
Qed.

Lemma deform_loop_Returned fuel it colourspace w u w1 t :
  while fuel
    (done ← host_call host (MItMeshVertex_isDone it); mret (negb done))
    (position ← host_call host (MItMeshVertex_position it kObject);
     Lab ← lift (RGB_to_Lab' [mp_x position; mp_y position; mp_z position] colourspace);
     coordinates ← lift (tuple (np_ravel Lab));
     point ← get_mpoint host coordinates;
     host_call host (MItMeshVertex_setPosition it point);;
     host_call host (MItMeshVertex_next it)) w
  = (Returned u, w1, t) →
  ∃ visits,
    length visits < fuel
    ∧ Forall (λ v, Lab_of_position' colourspace (position v)
                   = inr (numbers (Lab v))) visits
    ∧ t = concat (deform_events it <$> visits) ++ [Ev (MItMeshVertex_isDone it) (inr true)].
Proof.
  revert w t. induction fuel as [|fuel IH]; intros w t; simpl; [done|].
  intros H. invert_run. destruct a0; simpl in H.
  - invert_run. exists []. split_and!; [simpl; lia|done|done].
  - invert_run. invert_calls.
    destruct (IH _ _ H) as (visits & Hlen & Hall & ->).
    match goal with
    | Ht : tuple (np_ravel ?lab) = inr ?c, Hc : ?c = _ :: _ :: _ :: _ |- _ =>
        rewrite tuple_ravel in Ht;
        destruct (data lab) as [|l [|a [|b rest]]] eqn:Hdata; simplify_eq/=
    end.
    match goal with
    | Hpos : host (MItMeshVertex_position _ _) _ = (inr ?p, _),
      Hset : host (MItMeshVertex_setPosition _ ?q) _ = _ |- _ =>
        exists (Visit p (l, a, b) q :: visits)
    end.
    split_and!; [simpl; lia| |done].
    constructor; [|done]. simpl. by eapply Lab_of_position_inr.
Qed.

Lemma not_done_run it w done :
  (host (MItMeshVertex_isDone it) w).1 = inr done →
  (done ← host_call host (MItMeshVertex_isDone it); mret (negb done)) w
  = (Returned (negb done), (host (MItMeshVertex_isDone it) w).2,
     [Ev (MItMeshVertex_isDone it) (inr done)]).
Proof. intros H. by run_call H. Qed.

Lemma deform_loop_answered fuel it colourspace visits w w1 :
  length visits < fuel →
  Forall (λ v, Lab_of_position' colourspace (position v)
               = inr (numbers (Lab v))) visits →
  steps host w
    (concat (deform_events it <$> visits) ++ [Ev (MItMeshVertex_isDone it) (inr true)])
    w1 →
  while fuel
    (done ← host_call host (MItMeshVertex_isDone it); mret (negb done))
    (position ← host_call host (MItMeshVertex_position it kObject);
     Lab ← lift (RGB_to_Lab' [mp_x position; mp_y position; mp_z position] colourspace);
     coordinates ← lift (tuple (np_ravel Lab));
     point ← get_mpoint host coordinates;
     host_call host (MItMeshVertex_setPosition it point);;
     host_call host (MItMeshVertex_next it)) w
  = (Returned (), w1,
     concat (deform_events it <$> visits) ++ [Ev (MItMeshVertex_isDone it) (inr true)]).
Proof.
  revert fuel w.
  induction visits as [|[p [[l a] b] q] visits IH]; intros fuel w Hlen Hall Hs;
    (destruct fuel as [|fuel]; [simpl in Hlen; lia|]).
  - destruct Hs as [H1 ->]. cbn [while].
    by rewrite (bind_Returned_run _ _ _ _ _ _ (not_done_run _ _ _ H1)).
  - apply Forall_cons in Hall as [Hlab Hall]. simpl in Hlab.
    apply Lab_of_position_inv in Hlab as (lab & rest & HRGB & Hdata).
    destruct Hs as (H1 & H2 & H3 & H4 & H5 & Hs).
    cbn [ev_call ev_resp position Lab point] in H1, H2, H3, H4, H5, Hs.
    specialize (IH fuel _ ltac:(simpl in Hlen; lia) Hall Hs). simpl in IH.
    cbn [while].
    rewrite (bind_Returned_run _ _ _ _ _ _ (not_done_run _ _ _ H1)).
    cbn [negb]. rewrite bind_run. run_call H2.
    rewrite HRGB, bind_lift, tuple_ravel, bind_lift, Hdata, !fmap_cons.
    rewrite (bind_Returned_run _ _ _ _ _ _
               (get_mpoint_answered _ _ _ _ _ _ _ (pair_eta H3))).
    run_call H4. run_call H5. simpl. by rewrite IH.
Qed.

Lemma Lab_colourspace_cube_Returned fuel colourspace density w v w1 t :
  Lab_colourspace_cube' fuel colourspace density w = (Returned v, w1, t) →
  ∃ a selection_list dag_path it visits,
    v = new_name a
    ∧ length visits < fuel
    ∧ Forall (λ v, Lab_of_position' colourspace (position v)
                   = inr (numbers (Lab v))) visits
    ∧ t = RGB_identity_cube_events (name colourspace) density a
          ++ deform_cube_events (new_name a) selection_list dag_path it visits.
Proof.
  unfold Lab_colourspace_cube. intros H. invert_run.
  match goal with
  | H : RGB_identity_cube _ _ _ _ = _ |- _ =>
      apply RGB_identity_cube_Returned in H as (ans & -> & ->)
  end.
  match goal with
  | H : while _ _ _ _ = _ |- _ =>
      apply deform_loop_Returned in H as (visits & Hlen & Hall & ->)
  end.
  invert_calls.
  eexists ans, _, _, _, visits. split_and!; [done..|].
  unfold deform_cube_events, cube_rotation. simpl.
  rewrite <-?app_assoc. simpl. reflexivity.
Qed.

Lemma Lab_colourspace_cube_answered fuel colourspace density w w1
    a selection_list dag_path it visits :
  length visits < fuel →
  Forall (λ v, Lab_of_position' colourspace (position v)
               = inr (numbers (Lab v))) visits →
  steps host w
    (RGB_identity_cube_events (name colourspace) density a
     ++ deform_cube_events (new_name a) selection_list dag_path it visits) w1 →
  Lab_colourspace_cube' fuel colourspace density w
  = (Returned (new_name a), w1,
     RGB_identity_cube_events (name colourspace) density a
     ++ deform_cube_events (new_name a) selection_list dag_path it visits).
Proof.
  intros Hlen Hall Hs. unfold deform_cube_events in *.
  apply steps_app_inv in Hs as (w2 & Hcube & Hs).
  apply steps_app_inv in Hs as (w3 & Hdag & Hs).
  apply steps_app_inv in Hs as (w4 & [H1 ->] & Hs).
  rewrite (app_assoc (concat _)) in Hs.
  apply steps_app_inv in Hs as (w5 & Hloop & Hs).
  apply steps_app_inv in Hs as (w6 & Hrot & [H2 ->]).
  unfold Lab_colourspace_cube.
  rewrite (bind_Returned_run _ _ _ _ _ _ (RGB_identity_cube_answered _ _ _ _ _ Hcube)).
  rewrite (bind_Returned_run _ _ _ _ _ _ (get_dag_path_answered _ _ _ _ _ Hdag)).
  run_call H1.
  rewrite (bind_Returned_run _ _ _ _ _ _
             (deform_loop_answered _ _ _ _ _ _ Hlen Hall Hloop)).
  rewrite (bind_Returned_run _ _ _ _ _ _ (set_attributes_answered _ _ _ Hrot)).
  run_call H2. simpl. by rewrite <-!app_assoc.
Qed.

Lemma positions_set_app t1 t2 :
  positions_set (t1 ++ t2) = positions_set t1 ++ positions_set t2.
Proof. apply omap_app. Qed.

Lemma setAttr_events_set_nothing (entries : list (string * value)) :
  positions_set (setAttr_event <$> entries) = [].
Proof. by induction entries. Qed.

Lemma colour_loop_sets_nothing pa ca ia start reads :
  positions_set (concat (zip_with (colour_events pa ca ia)
                           (seq start (length reads)) reads)) = [].
Proof.
  revert start. induction reads as [|[[p0 p1] p2] reads IH]; intros start; [done|].
  simpl. apply IH.
Qed.

Lemma RGB_identity_cube_sets_nothing name density a :
  positions_set (RGB_identity_cube_events name density a) = [].
Proof.
  unfold RGB_identity_cube_events, cube_setup_events, cube_colour_events.
  rewrite !positions_set_app, setAttr_events_set_nothing, colour_loop_sets_nothing.
  done.
Qed.

Lemma deform_loop_sets it visits :
  positions_set (concat (deform_events it <$> visits)) = point <$> visits.
Proof.
  induction visits as [|v visits IH]; [done|].
  change (concat (deform_events it <$> v :: visits))
    with (deform_events it v ++ concat (deform_events it <$> visits)).
  rewrite positions_set_app, IH. by destruct v as [p [[l a] b] q].
Qed.

Lemma deform_cube_sets cube selection_list dag_path it visits :
  positions_set (deform_cube_events cube selection_list dag_path it visits)
  = point <$> visits.
Proof.
  unfold deform_cube_events.
  rewrite !positions_set_app, deform_loop_sets, setAttr_events_set_nothing.
  simpl. by rewrite app_nil_r.
Qed.

(** C7. The run of [Lab_colourspace_cube(colourspace, density)] starts with
    the run of [RGB_identity_cube(colourspace.name, density)] in the same
    world: when that call returns [cube], the run goes on from the world it
    left and can only return [cube]; when it does not return, its outcome is
    the outcome of [Lab_colourspace_cube].  A run of [RGB_identity_cube] that
    returns calls [set_attributes] (on the translation of the cube),
    [get_shapes] (on the cube, with the default flags) and [get_dag_path] (on
    the first shape), each running to its return inside the trace. *)
Theorem Lab_colourspace_cube_calls_RGB_identity_cube fuel colourspace density w :
  match RGB_identity_cube host (name colourspace) density w with
  | (Returned cube, w1, t1) =>
      ∃ o w2 t2,
        Lab_colourspace_cube' fuel colourspace density w = (o, w2, t1 ++ t2)
        ∧ ∀ v, o = Returned v → v = cube
  | (Raised e, w1, t1) =>
      Lab_colourspace_cube' fuel colourspace density w = (Raised e, w1, t1)
  | (OutOfFuel, w1, t1) =>
      Lab_colourspace_cube' fuel colourspace density w = (OutOfFuel, w1, t1)
  end
  ∧ (∀ name v w1 t,
       RGB_identity_cube host name density w = (Returned v, w1, t) →
       ∃ a,
         t = RGB_identity_cube_events name density a
         ∧ calls host (RGB_identity_cube host name density) w
             (set_attributes host (cube_translation (poly_cube a))) true
         ∧ calls host (RGB_identity_cube host name density) w
             (get_shapes host (poly_cube a) false true)
             (cube_shape a :: cube_shapes_rest a)
         ∧ calls host (RGB_identity_cube host name density) w
             (get_dag_path host (cube_shape a)) (shape_path a)).
Proof.
  split.
  - unfold Lab_colourspace_cube. rewrite bind_run.
    destruct (RGB_identity_cube host (name colourspace) density w)
      as [[[cube|e|] w1] t1]; [|done..].
    match goal with
    | |- context [match ?m with (_, _) => _ end] =>
        destruct m as [[o w2] t2] eqn:Hrest
    end.
    exists o, w2, t2. split; [done|]. intros v ->. by invert_run.
  - intros name v w1 t Hrun.
    destruct (propagates_RGB_identity_cube _ _ _ _ _ _ Hrun) as [Hs _].
    apply RGB_identity_cube_Returned in Hrun as Hrun'.
    destruct Hrun' as (a & -> & ->). exists a. split; [done|].
    unfold calls. rewrite Hrun. cbn [snd].
    unfold RGB_identity_cube_events, cube_setup_events in *.
    rewrite <-!app_assoc in Hs.
    apply steps_app_inv in Hs as (w2 & Hpre1 & Hs).
    apply steps_app_inv in Hs as (w3 & Hset & Hs).
    apply steps_app_inv in Hs as (w5 & Hmid & Hs).
    match type of Hmid with
    | steps _ _ [?e1; ?e2; ?e3; ?e4; ?e5] _ =>
        apply (steps_app_inv host _ [e1; e2; e3; e4] [e5]) in Hmid
          as (w4 & Hpre2 & Hshapes)
    end.
    apply steps_app_inv in Hs as (w6 & Hdag & Hs).
    pose proof (steps_app _ _ _ _ _ _ Hpre1 Hset) as Hpre3.
    pose proof (steps_app _ _ _ _ _ _ Hpre3 Hpre2) as Hpre4.
    pose proof (steps_app _ _ _ _ _ _ Hpre4 Hshapes) as Hpre5.
    destruct Hshapes as [Hshapes Hw5].
    split_and!.
    + eexists _, w2, w3, _, _. split_and!; [|exact Hpre1|].
      2: by apply set_attributes_answered.
      rewrite <-!app_assoc. reflexivity.
    + eexists _, w4, w5, _, _. split_and!; [|exact Hpre4|].
      2: { rewrite Hw5.
           exact (get_shapes_answered _ _ _ _ _ _ (pair_eta Hshapes)). }
      rewrite <-!app_assoc. reflexivity.
    + eexists _, w5, w6, _, _. split_and!; [|exact Hpre5|].
      2: by apply get_dag_path_answered.
      rewrite <-!app_assoc. reflexivity.
Qed.

(** C8. A run of [Lab_colourspace_cube] that returns is the run of
    [RGB_identity_cube], then [get_dag_path] on the cube and a vertex
    iterator on that path, then one turn of the loop for each vertex the
    iterator yields before it reports done: the turn reads the vertex's
    object-space position, takes its three coordinates as an RGB value, and
    writes back the host's [MPoint] of the first three numbers of the tuple
    of the flattened [RGB_to_Lab] of that value, then advances the iterator;
    so the positions written are, in the iterator's order, one for each
    vertex visited.  After the loop the cube gets [rotateX = 180], then
    [rotateZ = 90], and [makeIdentity] freezes its transform.  More fuel does
    not change the run, and a host that answers as in such a trace, with
    fewer visits than fuel, makes the function return.  The flattening is
    what makes the tuple one of numbers, in row-major order, whatever the
    shape of the array: the tuple of a column of three is three
    sub-arrays. *)
Theorem Lab_colourspace_cube_deforms_each_vertex fuel colourspace density w :
  (∀ v w1 t,
     Lab_colourspace_cube' fuel colourspace density w = (Returned v, w1, t) →
     ∃ a selection_list dag_path it visits,
       v = new_name a
       ∧ t = RGB_identity_cube_events (name colourspace) density a
             ++ deform_cube_events (new_name a) selection_list dag_path it visits
       ∧ Forall (λ v, Lab_of_position' colourspace (position v)
                      = inr (numbers (Lab v))) visits
       ∧ positions_set t = point <$> visits
       ∧ items (cube_rotation (new_name a))
         = [(fmt_attr (new_name a) "rotateX", VInt 180);
            (fmt_attr (new_name a) "rotateZ", VInt 90)]
       ∧ ∀ fuel', fuel ≤ fuel' →
           Lab_colourspace_cube' fuel' colourspace density w = (Returned v, w1, t))
  ∧ (∀ a selection_list dag_path it visits w1,
       length visits < fuel →
       Forall (λ v, Lab_of_position' colourspace (position v)
                    = inr (numbers (Lab v))) visits →
       steps host w
         (RGB_identity_cube_events (name colourspace) density a
          ++ deform_cube_events (new_name a) selection_list dag_path it visits) w1 →
       Lab_colourspace_cube' fuel colourspace density w
       = (Returned (new_name a), w1,
          RGB_identity_cube_events (name colourspace) density a
          ++ deform_cube_events (new_name a) selection_list dag_path it visits))
  ∧ (∀ lab, tuple (np_ravel lab) = inr (Number <$> data lab))
  ∧ (∀ x y z,
       tuple (NdArray [3; 1] [x; y; z])
       = inr [SubArray (NdArray [1] [x]); SubArray (NdArray [1] [y]);
              SubArray (NdArray [1] [z])]).
Proof.
  split_and!; [| |apply tuple_ravel|done].
  - intros v w1 t Hrun.
    destruct (propagates_Lab_colourspace_cube _ _ _ _ _ _ _ Hrun) as [Hs _].
    apply Lab_colourspace_cube_Returned in Hrun
      as (a & sl & dp & it & visits & -> & Hlen & Hall & ->).
    exists a, sl, dp, it, visits. split_and!; [done..| | |].
    + by rewrite positions_set_app, RGB_identity_cube_sets_nothing, deform_cube_sets.
    + apply cube_rotation_entries.
    + intros fuel' Hfuel. apply Lab_colourspace_cube_answered; [lia|done..].
  - intros a sl dp it visits w1. apply Lab_colourspace_cube_answered.
Qed.

(** ** Edges of the functions *)

(** X1.  A point of fewer than three components: [get_mpoint] raises the
    [IndexError] of the indexing of a tuple, makes no host call and leaves
    the world as it is. *)
Theorem get_mpoint_short_point point w :
  length point < 3 →
  get_mpoint host point w
  = (Raised (Exc IndexError "tuple index out of range"), w, []).
Proof.
  intros Hlen. destruct point as [|x [|y [|z rest]]]; simpl in Hlen; try lia; done.
Qed.

(** X2.  The lookup of the illuminant.  Without the observer in
    [ILLUMINANTS], [RGB_to_Lab] raises an [AttributeError] whatever the RGB value, the
    colourspace and the transforms; with the observer but without its ['E']
    entry it goes on, handing [None] to [RGB_to_XYZ] as the illuminant. *)
Theorem RGB_to_Lab_illuminant_lookup RGB colourspace :
  (ILLUMINANTS !! "CIE 1931 2 Degree Standard Observer" = None →
   RGB_to_Lab' RGB colourspace
   = inl (Exc AttributeError "'NoneType' object has no attribute 'get'")
   ∧ ∀ position,
       Lab_of_position' colourspace position
       = inl (Exc AttributeError "'NoneType' object has no attribute 'get'"))
  ∧ (∀ illuminants,
       ILLUMINANTS !! "CIE 1931 2 Degree Standard Observer" = Some illuminants →
       illuminants !! "E" = None →
       RGB_to_Lab' RGB colourspace
       = RGB_to_XYZ (np_array RGB) (whitepoint colourspace) None
           (to_XYZ colourspace) "Bradford" (inverse_transfer_function colourspace)
         ≫= λ XYZ, XYZ_to_Lab XYZ (whitepoint colourspace)).
Proof.
  split.
  - intros Hobs. unfold Lab_of_position, RGB_to_Lab, ILLUMINANTS_get_get.
    by rewrite Hobs.
  - intros illuminants Hobs HE. unfold RGB_to_Lab, ILLUMINANTS_get_get.
    by rewrite Hobs, HE.
Qed.

(** X3.  A cube without shapes.  When [listRelatives] answers [None] or the
    empty list for the cube [polyCube] made, [get_shapes(cube)[0]] is an
    [IndexError]: [RGB_identity_cube] raises it after the cube was created,
    translated and set to display colours and the three arrays were made; no
    mesh is opened, no colour is set and the cube is not renamed. *)
Theorem RGB_identity_cube_without_shapes name density w w1
    cube cubes_rest colours indices points shapes :
  default [] shapes = [] →
  steps host w
    (cube_shapes_events density cube cubes_rest colours indices points shapes) w1 →
  RGB_identity_cube host name density w
  = (Raised (Exc IndexError "list index out of range"), w1,
     cube_shapes_events density cube cubes_rest colours indices points shapes).
Proof.
  intros Hnone Hs. unfold cube_shapes_events in *.
  apply steps_app_inv in Hs as (w2 & [H1 ->] & Hs).
  apply steps_app_inv in Hs as (w3 & Hset & (H2 & H3 & H4 & H5 & H6 & ->)).
  unfold RGB_identity_cube.
  run_call H1. rewrite getitem_cons, bind_lift.
  rewrite (bind_Returned_run _ _ _ _ _ _ (set_attributes_answered _ _ _ Hset)).
  run_call H2. run_call H3. run_call H4. run_call H5.
  rewrite (bind_Returned_run _ _ _ _ _ _
             (get_shapes_answered _ _ _ _ _ _ (pair_eta (H6 : (host _ _).1 = inr _)))).
  rewrite Hnone. simpl. by rewrite <-?app_assoc.
Qed.

(** When the Lab coordinates of a position cannot be computed, the turn of
    the loop stops there, before any call for the new point. *)
Lemma Lab_of_position_raises {B} colourspace position e (k : MPoint → M B) w :
  Lab_of_position' colourspace position = inl e →
  (Lab ← lift (RGB_to_Lab' [mp_x position; mp_y position; mp_z position] colourspace);
   coordinates ← lift (tuple (np_ravel Lab));
   point ← get_mpoint host coordinates;
   k point) w
  = (Raised e, w, []).
Proof.
  unfold Lab_of_position.
  destruct (RGB_to_Lab' _ colourspace) as [e0|lab]; simpl.
  - by intros [= ->].
  - intros H. rewrite bind_lift, tuple_ravel, bind_lift. unfold get_mpoint.
    destruct (data lab) as [|x [|y [|z rest]]]; simpl in *; try done;
      by injection H as <-.
Qed.

Lemma deform_loop_interrupted fuel it colourspace visits vertex e w w1 :
  length visits < fuel →
  Forall (λ v, Lab_of_position' colourspace (position v)
               = inr (numbers (Lab v))) visits →
  Lab_of_position' colourspace vertex = inl e →
  steps host w
    (concat (deform_events it <$> visits)
     ++ [Ev (MItMeshVertex_isDone it) (inr false);
         Ev (MItMeshVertex_position it kObject) (inr vertex)]) w1 →
  while fuel
    (done ← host_call host (MItMeshVertex_isDone it); mret (negb done))
    (position ← host_call host (MItMeshVertex_position it kObject);
     Lab ← lift (RGB_to_Lab' [mp_x position; mp_y position; mp_z position] colourspace);
     coordinates ← lift (tuple (np_ravel Lab));
     point ← get_mpoint host coordinates;
     host_call host (MItMeshVertex_setPosition it point);;
     host_call host (MItMeshVertex_next it)) w
  = (Raised e, w1,
     concat (deform_events it <$> visits)
     ++ [Ev (MItMeshVertex_isDone it) (inr false);
         Ev (MItMeshVertex_position it kObject) (inr vertex)]).
Proof.
  intros Hlen Hall Hraise. revert fuel w Hlen Hall.
  induction visits as [|[p [[l a] b] q] visits IH]; intros fuel w Hlen Hall Hs;
    (destruct fuel as [|fuel]; [simpl in Hlen; lia|]).
  - destruct Hs as (H1 & H2 & ->). cbn [while].
    rewrite (bind_Returned_run _ _ _ _ _ _ (not_done_run _ _ _ H1)).
    cbn [negb]. rewrite bind_run. run_call H2.
    by rewrite (Lab_of_position_raises _ _ _ _ _ Hraise).
  - apply Forall_cons in Hall as [Hlab Hall]. simpl in Hlab.
    apply Lab_of_position_inv in Hlab as (lab & rest & HRGB & Hdata).
    destruct Hs as (H1 & H2 & H3 & H4 & H5 & Hs).
    cbn [ev_call ev_resp position Lab point] in H1, H2, H3, H4, H5, Hs.
    specialize (IH fuel _ ltac:(simpl in Hlen; lia) Hall Hs). simpl in IH.
    cbn [while].
    rewrite (bind_Returned_run _ _ _ _ _ _ (not_done_run _ _ _ H1)).
    cbn [negb]. rewrite bind_run. run_call H2.
    rewrite HRGB, bind_lift, tuple_ravel, bind_lift, Hdata, !fmap_cons.
    rewrite (bind_Returned_run _ _ _ _ _ _
               (get_mpoint_answered _ _ _ _ _ _ _ (pair_eta H3))).
    run_call H4. run_call H5. simpl. by rewrite IH.
Qed.

Lemma attributes_set_app t1 t2 :
  attributes_set (t1 ++ t2) = attributes_set t1 ++ attributes_set t2.
Proof. apply omap_app. Qed.

Lemma deform_loop_sets_no_attribute it visits :
  attributes_set (concat (deform_events it <$> visits)) = [].
Proof.
  induction visits as [|v visits IH]; [done|].
  change (concat (deform_events it <$> v :: visits))
    with (deform_events it v ++ concat (deform_events it <$> visits)).
  rewrite attributes_set_app, IH. by destruct v as [p [[l a] b] q].
Qed.

(** X4.  The colour library fails in the middle of the loop.  When the Lab
    coordinates of the vertex the iterator is at cannot be computed
    ([RGB_to_Lab] raises, or its flattened result has fewer than three
    elements), [Lab_colourspace_cube] raises that exception right after the
    read of the vertex: the vertices visited before keep their new positions,
    the vertex at hand and the ones after it are not written, and the cube is
    neither rotated nor frozen. *)
Theorem Lab_colourspace_cube_interrupted fuel colourspace density w w1
    a selection_list dag_path it visits vertex e :
  length visits < fuel →
  Forall (λ v, Lab_of_position' colourspace (position v)
               = inr (numbers (Lab v))) visits →
  Lab_of_position' colourspace vertex = inl e →
  steps host w
    (RGB_identity_cube_events (name colourspace) density a
     ++ deform_until_events (new_name a) selection_list dag_path it visits vertex)
    w1 →
  Lab_colourspace_cube' fuel colourspace density w
  = (Raised e, w1,
     RGB_identity_cube_events (name colourspace) density a
     ++ deform_until_events (new_name a) selection_list dag_path it visits vertex)
  ∧ positions_set
      (RGB_identity_cube_events (name colourspace) density a
       ++ deform_until_events (new_name a) selection_list dag_path it visits vertex)
    = point <$> visits
  ∧ attributes_set
      (deform_until_events (new_name a) selection_list dag_path it visits vertex)
    = [].
Proof.
  intros Hlen Hall Hraise Hs. split_and!.
  - unfold deform_until_events in *.
    apply steps_app_inv in Hs as (w2 & Hcube & Hs).
    apply steps_app_inv in Hs as (w3 & Hdag & Hs).
    apply steps_app_inv in Hs as (w4 & [H1 ->] & Hloop).
    unfold Lab_colourspace_cube.
    rewrite (bind_Returned_run _ _ _ _ _ _ (RGB_identity_cube_answered _ _ _ _ _ Hcube)).
    rewrite (bind_Returned_run _ _ _ _ _ _ (get_dag_path_answered _ _ _ _ _ Hdag)).
    run_call H1.
    rewrite (bind_Raised_run _ _ _ _ _ _
               (deform_loop_interrupted _ _ _ _ _ _ _ _ Hlen Hall Hraise Hloop)).
    simpl. by rewrite <-?app_assoc.
  - unfold deform_until_events.
    rewrite !positions_set_app, RGB_identity_cube_sets_nothing, deform_loop_sets.
    simpl. by rewrite app_nil_r.
  - unfold deform_until_events.
    by rewrite !attributes_set_app, deform_loop_sets_no_attribute.
Qed.

Lemma elem_of_concat {A} (x : A) l ls : l ∈ ls → x ∈ l → x ∈ concat ls.
Proof.
  induction 1 as [l ls|l l0 ls Hin IH]; simpl; intros Hx; apply elem_of_app; auto.
Qed.

(** The events of a turn are events of the whole run. *)
Lemma deform_events_in_run name density a cube selection_list dag_path it visits v ev :
  v ∈ visits → ev ∈ deform_events it v →
  ev ∈ RGB_identity_cube_events name density a
       ++ deform_cube_events cube selection_list dag_path it visits.
Proof.
  intros Hv Hev. unfold deform_cube_events. rewrite !elem_of_app.
  right. right. right. left.
  apply (elem_of_concat _ (deform_events it v)); [|done].
  by apply list_elem_of_fmap_2.
Qed.

(** X5.  From RGB to Lab, vertex by vertex.  With the observer in
    [ILLUMINANTS], every position a returning run of [Lab_colourspace_cube] writes is the
    host's [MPoint] of the first three elements of
    [XYZ_to_Lab(RGB_to_XYZ(...), whitepoint)], computed from the coordinates
    the iterator reported for that vertex, with the colourspace's whitepoint,
    matrix and inverse transfer function. *)
Theorem Lab_colourspace_cube_writes_Lab_coordinates
    fuel colourspace density w v w1 t illuminants :
  ILLUMINANTS !! "CIE 1931 2 Degree Standard Observer" = Some illuminants →
  Lab_colourspace_cube' fuel colourspace density w = (Returned v, w1, t) →
  ∃ it visits,
    positions_set t = point <$> visits
    ∧ Forall (λ v,
        ∃ XYZ lab rest,
          RGB_to_XYZ (np_array [mp_x (position v); mp_y (position v); mp_z (position v)])
            (whitepoint colourspace) (illuminants !! "E") (to_XYZ colourspace)
            "Bradford" (inverse_transfer_function colourspace) = inr XYZ
          ∧ XYZ_to_Lab XYZ (whitepoint colourspace) = inr lab
          ∧ data lab = (Lab v).1.1 :: (Lab v).1.2 :: (Lab v).2 :: rest
          ∧ Ev (MItMeshVertex_position it kObject) (inr (position v)) ∈ t
          ∧ Ev (MPoint_new (Lab v).1.1 (Lab v).1.2 (Lab v).2) (inr (point v)) ∈ t
          ∧ Ev (MItMeshVertex_setPosition it (point v)) (inr ()) ∈ t) visits.
Proof.
  intros Hobs Hrun.
  apply Lab_colourspace_cube_Returned in Hrun
    as (a & sl & dp & it & visits & -> & Hlen & Hall & ->).
  exists it, visits. split.
  - by rewrite positions_set_app, RGB_identity_cube_sets_nothing, deform_cube_sets.
  - apply Forall_forall. intros [p [[l c] b] q] Hv.
    rewrite Forall_forall in Hall. specialize (Hall _ Hv). simpl in Hall.
    apply Lab_of_position_inv in Hall as (lab & rest & HRGB & Htuple).
    unfold RGB_to_Lab, ILLUMINANTS_get_get in HRGB. rewrite Hobs in HRGB.
    simpl in HRGB.
    destruct (RGB_to_XYZ _ _ _ _ _ _) as [e|XYZ] eqn:HXYZ; [done|]. simpl in HRGB.
    exists XYZ, lab, rest. simpl. split_and!; [done..| | |].
    all: eapply deform_events_in_run; [exact Hv|]; simpl;
      repeat first [by left | right].
Qed.

(** *** [Lab_coordinates_system_representation] *)

(** The function is its setup, the turns of [label_turn] over the four
    labels, and its last three calls. *)
Lemma Lab_coordinates_system_representation_turns :
  Lab_coordinates_system_representation host =
    (group ← host_call host (cmds createNode [VStr "transform"] []);
     cubes ← host_call host (cmds polyCube []
                               [("w", VInt 600); ("h", VInt 100); ("d", VInt 600);
                                ("sx", VInt 12); ("sy", VInt 2); ("sz", VInt 12);
                                ("ch", VBool false)]);
     cube ← lift (getitem cubes 0);
     set_attributes host (grid_attributes cube);;
     host_call host (makeIdentity_call cube);;
     host_call host (cmds select [VList [VStr (fmt_attr cube "f[0:167]");
                                         VStr (fmt_attr cube "f[336:359]")]] []);;
     host_call host (cmds delete [] []);;
     host_call host (cmds nurbsToPolygonsPref []
                       [("polyType", VInt 1); ("chordHeightRatio", VFloat 0.975)]);;
     for_each axis_labels (label_turn host group cube);;
     cube ← host_call host (cmds rename [VStr cube; VStr "grid"] []);
     host_call host (cmds parent [VStr cube; VStr group] []);;
     host_call host (cmds rename [VStr group;
                                  VStr "Lab_coordinates_system_representation"] []);;
     mret true).
Proof. reflexivity. Qed.

Lemma surfaces_Returned (xs : list string) w ys w1 t :
  comprehension xs (λ x,
    host_call host (cmds planarSrf [VStr x]
                      [("ch", VBool false); ("o", VBool true); ("po", VInt 1)])) w
  = (Returned ys, w1, t) →
  length ys = length xs
  ∧ t = zip_with (λ x surface,
          Ev (cmds planarSrf [VStr x]
                [("ch", VBool false); ("o", VBool true); ("po", VInt 1)])
             (inr surface)) xs ys.
Proof.
  revert w ys t. induction xs as [|x xs IH]; intros w ys t; simpl.
  - by intros [= <- _ <-].
  - intros H. invert_run. destruct (IH _ _ _ Hrun0) as [Hlen ->].
    simpl. split; [by f_equal|by rewrite app_nil_r].
Qed.

Lemma surfaces_answered (xs : list string) (ys : list (list string)) w w1 :
  length ys = length xs →
  steps host w
    (zip_with (λ x surface,
       Ev (cmds planarSrf [VStr x]
             [("ch", VBool false); ("o", VBool true); ("po", VInt 1)])
          (inr surface)) xs ys) w1 →
  comprehension xs (λ x,
    host_call host (cmds planarSrf [VStr x]
                      [("ch", VBool false); ("o", VBool true); ("po", VInt 1)])) w
  = (Returned ys, w1,
     zip_with (λ x surface,
       Ev (cmds planarSrf [VStr x]
             [("ch", VBool false); ("o", VBool true); ("po", VInt 1)])
          (inr surface)) xs ys).
Proof.
  revert ys w. induction xs as [|x xs IH]; intros [|y ys] w Hlen; try done; simpl.
  - by intros ->.
  - intros [H1 Hs]. injection Hlen as Hlen. run_call H1.
    rewrite (bind_Returned_run _ _ _ _ _ _ (IH _ _ Hlen Hs)).
    simpl. by rewrite app_nil_r.
Qed.

Lemma iter_inr {A} (xs : option (list A)) ys : iter xs = inr ys → xs = Some ys.
Proof. destruct xs; [by intros [= ->]|done]. Qed.

Lemma label_turn_Returned group cube label w u w1 t :
  label_turn host group cube label w = (Returned u, w1, t) →
  ∃ a,
    length (curve_surfaces a) = length (text_curves a)
    ∧ t = label_events group cube label a.
Proof.
  destruct label as [[text position] name]. unfold label_turn.
  intros H. invert_run. invert_calls.
  match goal with
  | H : comprehension _ _ _ = _ |- _ => apply surfaces_Returned in H as [Hlen ->]
  end.
  repeat match goal with
    | H : getitem _ 0 = inr _ |- _ => apply getitem_head in H as [? ->]
    | H : iter _ = inr _ |- _ => apply iter_inr in H as ->
    end.
  eexists (LabelAnswers _ _ _ _ _ _ _ _). split; [exact Hlen|].
  unfold label_events, label_attributes. simpl.
  rewrite <-?app_assoc. simpl. reflexivity.
Qed.

Lemma label_turn_answered group cube label a w w1 :
  length (curve_surfaces a) = length (text_curves a) →
  steps host w (label_events group cube label a) w1 →
  label_turn host group cube label w
  = (Returned (), w1, label_events group cube label a).
Proof.
  destruct label as [[text position] name]. unfold label_events.
  intros Hlen Hs. cbn [fst snd] in Hs.
  apply steps_app_inv in Hs as (w2 & (H1 & H2 & ->) & Hs).
  apply steps_app_inv in Hs as (w3 & Hsurf & Hs).
  apply steps_app_inv in Hs as (w4 & (H3 & H4 & H5 & H6 & H7 & H8 & ->) & Hs).
  apply steps_app_inv in Hs as (w5 & Hset & (H9 & H10 & H11 & H12 & H13 & ->)).
  unfold label_turn.
  run_call H1. rewrite getitem_cons, bind_lift. run_call H2.
  change (iter (Some (text_curves a))) with (inr (text_curves a) : result _).
  rewrite bind_lift.
  rewrite (bind_Returned_run _ _ _ _ _ _ (surfaces_answered _ _ _ _ Hlen Hsurf)).
  run_call H3. rewrite getitem_cons, bind_lift.
  run_call H4. run_call H5. run_call H6. run_call H7. run_call H8.
  rewrite (bind_Returned_run _ _ _ _ _ _ (set_attributes_answered _ _ _ Hset)).
  run_call H9. run_call H10. run_call H11. run_call H12. run_call H13.
  simpl. by rewrite <-?app_assoc.
Qed.

Lemma label_loop_Returned group cube ls w u w1 t :
  for_each ls (label_turn host group cube) w = (Returned u, w1, t) →
  ∃ answers,
    length answers = length ls
    ∧ Forall (λ l, length (curve_surfaces l) = length (text_curves l)) answers
    ∧ t = concat (zip_with (label_events group cube) ls answers).
Proof.
  revert w t. induction ls as [|l ls IH]; intros w t; simpl.
  - intros [= _ _ <-]. by exists [].
  - intros H. invert_run.
    apply label_turn_Returned in Hrun as (ans & Hfit & ->).
    destruct (IH _ _ H) as (answers & Hlen & Hall & ->).
    exists (ans :: answers). split_and!; [by simpl; f_equal|by constructor|done].
Qed.

Lemma label_loop_answered group cube ls answers w w1 :
  length answers = length ls →
  Forall (λ l, length (curve_surfaces l) = length (text_curves l)) answers →
  steps host w (concat (zip_with (label_events group cube) ls answers)) w1 →
  for_each ls (label_turn host group cube) w
  = (Returned (), w1, concat (zip_with (label_events group cube) ls answers)).
Proof.
  revert answers w. induction ls as [|l ls IH]; intros [|a answers] w Hlen Hall;
    try done.
  - simpl. by intros ->.
  - change (concat (zip_with (label_events group cube) (l :: ls) (a :: answers)))
      with (label_events group cube l a
            ++ concat (zip_with (label_events group cube) ls answers)).
    cbn [for_each].
    intros Hs. injection Hlen as Hlen. apply Forall_cons in Hall as [Hfit Hall].
    apply steps_app_inv in Hs as (w2 & Hturn & Hs).
    rewrite (bind_Returned_run _ _ _ _ _ _ (label_turn_answered _ _ _ _ _ _ Hfit Hturn)).
    by rewrite (IH _ _ Hlen Hall Hs).
Qed.

Lemma Lab_coordinates_system_representation_Returned w b w1 t :
  Lab_coordinates_system_representation host w = (Returned b, w1, t) →
  b = true
  ∧ ∃ a, grid_answers_fit a ∧ t = Lab_coordinates_system_representation_events a.
Proof.
  rewrite Lab_coordinates_system_representation_turns.
  intros H. invert_run. invert_calls.
  match goal with
  | H : for_each axis_labels _ _ = _ |- _ =>
      apply label_loop_Returned in H as (answers & Hlen & Hall & ->)
  end.
  repeat match goal with
    | H : getitem _ 0 = inr _ |- _ => apply getitem_head in H as [? ->]
    end.
  split; [done|].
  eexists (GridAnswers _ _ _ answers _ _). split; [by split|].
  unfold Lab_coordinates_system_representation_events, grid_setup_events,
    grid_label_events, grid_finish_events. simpl.
  rewrite <-?app_assoc. simpl. reflexivity.
Qed.

Lemma Lab_coordinates_system_representation_answered a w w1 :
  grid_answers_fit a →
  steps host w (Lab_coordinates_system_representation_events a) w1 →
  Lab_coordinates_system_representation host w
  = (Returned true, w1, Lab_coordinates_system_representation_events a).
Proof.
  intros [Hlen Hall].
  unfold Lab_coordinates_system_representation_events, grid_setup_events,
    grid_label_events, grid_finish_events.
  intros Hs. rewrite <-!app_assoc in Hs.
  apply steps_app_inv in Hs as (w2 & (H1 & H2 & ->) & Hs).
  apply steps_app_inv in Hs as (w3 & Hset & Hs).
  apply steps_app_inv in Hs as (w4 & (H3 & H4 & H5 & H6 & ->) & Hs).
  apply steps_app_inv in Hs as (w5 & Hloop & (H7 & H8 & H9 & ->)).
  rewrite Lab_coordinates_system_representation_turns.
  run_call H1. run_call H2. rewrite getitem_cons, bind_lift.
  rewrite (bind_Returned_run _ _ _ _ _ _ (set_attributes_answered _ _ _ Hset)).
  run_call H3. run_call H4. run_call H5. run_call H6.
  rewrite (bind_Returned_run _ _ _ _ _ _
             (label_loop_answered _ _ _ _ _ _ Hlen Hall Hloop)).
  run_call H7. run_call H8. run_call H9.
  simpl. by rewrite <-?app_assoc.
Qed.

(** X6.  A returning run of [Lab_coordinates_system_representation] returns
    [True] and is the setup of the group and the grid, one turn of the loop
    for each of the four labels (with one [planarSrf] call for each curve of
    the label's text), and the renaming and parenting of the grid and the
    group; a host that answers as in such a trace makes the function
    return. *)
Theorem Lab_coordinates_system_representation_run w :
  (∀ b w1 t,
     Lab_coordinates_system_representation host w = (Returned b, w1, t) →
     b = true
     ∧ ∃ a, grid_answers_fit a ∧ t = Lab_coordinates_system_representation_events a)
  ∧ (∀ a w1,
       grid_answers_fit a →
       steps host w (Lab_coordinates_system_representation_events a) w1 →
       Lab_coordinates_system_representation host w
       = (Returned true, w1, Lab_coordinates_system_representation_events a)).
Proof.
  split.
  - intros b w1 t. apply Lab_coordinates_system_representation_Returned.
  - intros a w1. apply Lab_coordinates_system_representation_answered.
Qed.

(** What a projection finds in the pieces of a trace. *)
Lemma omap_fmap_nothing {A B} (f : event → option B) (g : A → event) xs :
  (∀ x, f (g x) = None) → omap f (g <$> xs) = [].
Proof. intros Hf. induction xs as [|x xs IH]; [done|]. simpl. by rewrite Hf. Qed.

Lemma omap_zip_with_nothing {A B C} (f : event → option C) (g : A → B → event) xs ys :
  (∀ x y, f (g x y) = None) → omap f (zip_with g xs ys) = [].
Proof.
  intros Hf. revert ys. induction xs as [|x xs IH]; intros [|y ys]; try done.
  simpl. by rewrite Hf.
Qed.

Lemma omap_concat_zip_with {A B C} (f : event → option C) (g : A → B → list event)
    (h : A → B → list C) xs ys :
  (∀ x y, omap f (g x y) = h x y) →
  omap f (concat (zip_with g xs ys)) = concat (zip_with h xs ys).
Proof.
  intros Hf. revert ys. induction xs as [|x xs IH]; intros [|y ys]; try done.
  simpl. by rewrite omap_app, Hf, IH.
Qed.

Lemma attributes_set_setAttr_events (entries : list (string * value)) :
  attributes_set (setAttr_event <$> entries) = entries.
Proof. induction entries as [|[a v] entries IH]; [done|]. simpl. by f_equal. Qed.

Lemma label_events_attributes group cube label a :
  attributes_set (label_events group cube label a)
  = items (label_attributes (label_mesh a) label.1.2).
Proof.
  unfold label_events. rewrite !attributes_set_app, attributes_set_setAttr_events.
  unfold attributes_set at 2. rewrite omap_zip_with_nothing by done.
  simpl. by rewrite app_nil_r.
Qed.

(** The answers of a returning run hold four labels. *)
Lemma four_labels a :
  grid_answers_fit a → ∃ l1 l2 l3 l4, labels a = [l1; l2; l3; l4].
Proof.
  intros [Hlen _]. destruct (labels a) as [|l1 [|l2 [|l3 [|l4 [|l5 ls]]]]];
    try done. by exists l1, l2, l3, l4.
Qed.

(** X7.  The attributes set.  A returning run of
    [Lab_coordinates_system_representation] sets thirty-two attributes, in
    this order: four on the grid cube ([translateY], [overrideEnabled],
    [overrideDisplayType], [overrideShading]) and then, on the mesh of each
    label in turn, seven: its place ([translateX], [translateZ]),
    [rotateX = -90], [scaleX = 50], [scaleY = 50] and the two display
    overrides.  [scaleY], written twice in the source, is set once, and
    [scaleZ] is not set. *)
Theorem Lab_coordinates_system_representation_attributes w b w1 t :
  Lab_coordinates_system_representation host w = (Returned b, w1, t) →
  ∃ a l1 l2 l3 l4,
    t = Lab_coordinates_system_representation_events a
    ∧ labels a = [l1; l2; l3; l4]
    ∧ attributes_set t
      = grid_entries (grid_cube a)
        ++ label_entries (label_mesh l1) (-350, 0)%Z
        ++ label_entries (label_mesh l2) (350, 0)%Z
        ++ label_entries (label_mesh l3) (0, 350)%Z
        ++ label_entries (label_mesh l4) (0, -350)%Z
    ∧ length (attributes_set t) = 32
    ∧ ∀ mesh position,
        get (label_attributes mesh position) (fmt_attr mesh "scaleY")
        = Some (VInt 50)
        ∧ get (label_attributes mesh position) (fmt_attr mesh "scaleZ") = None.
Proof.
  intros (_ & a & Hfit & ->)%Lab_coordinates_system_representation_Returned.
  destruct (four_labels a Hfit) as (l1 & l2 & l3 & l4 & Hlabels).
  exists a, l1, l2, l3, l4.
  assert (attributes_set (Lab_coordinates_system_representation_events a)
          = grid_entries (grid_cube a)
            ++ label_entries (label_mesh l1) (-350, 0)%Z
            ++ label_entries (label_mesh l2) (350, 0)%Z
            ++ label_entries (label_mesh l3) (0, 350)%Z
            ++ label_entries (label_mesh l4) (0, -350)%Z) as Hset.
  { unfold Lab_coordinates_system_representation_events, grid_setup_events,
      grid_label_events.
    rewrite !attributes_set_app, attributes_set_setAttr_events.
    unfold attributes_set at 2.
    rewrite (omap_concat_zip_with _ _ _ _ _ (label_events_attributes _ _)).
    rewrite Hlabels. simpl.
    rewrite grid_attributes_entries, !label_attributes_entries.
    by rewrite !app_nil_r. }
  split_and!; [done..| | |].
  - exact Hset.
  - by rewrite Hset.
  - intros mesh position.
    pose proof (label_attributes_entries mesh position) as Hitems.
    unfold items in Hitems. rewrite Hitems.
    change (label_entries mesh position)
      with (prod_map (fmt_attr mesh) id
              <$> [("translateX", VInt position.1); ("translateZ", VInt position.2);
                   ("rotateX", VInt (-90)); ("scaleX", VInt 50);
                   ("scaleY", VInt 50); ("overrideEnabled", VBool true);
                   ("overrideDisplayType", VInt 2)]).
    by rewrite !get_of_node.
Qed.

Lemma nodes_parented_app t1 t2 :
  nodes_parented (t1 ++ t2) = nodes_parented t1 ++ nodes_parented t2.
Proof. apply omap_app. Qed.

Lemma renames_asked_app t1 t2 :
  renames_asked (t1 ++ t2) = renames_asked t1 ++ renames_asked t2.
Proof. apply omap_app. Qed.

Lemma label_events_structure group cube label a :
  nodes_parented (label_events group cube label a) = [(label_node a, group)]
  ∧ renames_asked (label_events group cube label a) = [(label_mesh a, label.2)].
Proof.
  unfold label_events.
  rewrite !nodes_parented_app, !renames_asked_app.
  unfold nodes_parented at 2 4, renames_asked at 2 4.
  rewrite !omap_zip_with_nothing, !omap_fmap_nothing by done.
  done.
Qed.

(** X8.  The nodes made.  A returning run of
    [Lab_coordinates_system_representation] asks for six renames, in this
    order: the meshes of the four labels to [minus_a], [plus_a], [minus_b]
    and [plus_b], the cube to [grid], the group to
    [Lab_coordinates_system_representation]; and it parents five nodes to the
    group it created first: the four labels and the grid, each under the name
    the host answered to its rename. *)
Theorem Lab_coordinates_system_representation_nodes w b w1 t :
  Lab_coordinates_system_representation host w = (Returned b, w1, t) →
  ∃ a l1 l2 l3 l4,
    t = Lab_coordinates_system_representation_events a
    ∧ labels a = [l1; l2; l3; l4]
    ∧ renames_asked t
      = [(label_mesh l1, "minus_a"); (label_mesh l2, "plus_a");
         (label_mesh l3, "minus_b"); (label_mesh l4, "plus_b");
         (grid_cube a, "grid");
         (group_node a, "Lab_coordinates_system_representation")]
    ∧ nodes_parented t
      = [(label_node l1, group_node a); (label_node l2, group_node a);
         (label_node l3, group_node a); (label_node l4, group_node a);
         (grid_node a, group_node a)].
Proof.
  intros (_ & a & Hfit & ->)%Lab_coordinates_system_representation_Returned.
  destruct (four_labels a Hfit) as (l1 & l2 & l3 & l4 & Hlabels).
  exists a, l1, l2, l3, l4. split_and!; [done..| |].
  - unfold Lab_coordinates_system_representation_events, grid_setup_events,
      grid_label_events.
    rewrite !renames_asked_app.
    unfold renames_asked at 2 4. rewrite omap_fmap_nothing by done.
    rewrite (omap_concat_zip_with _ _ (λ label l, [(label_mesh l, label.2)]))
      by (intros; apply label_events_structure).
    by rewrite Hlabels.
  - unfold Lab_coordinates_system_representation_events, grid_setup_events,
      grid_label_events.
    rewrite !nodes_parented_app.
    unfold nodes_parented at 2 4. rewrite omap_fmap_nothing by done.
    rewrite (omap_concat_zip_with _ _ (λ label l, [(label_node l, group_node a)]))
      by (intros; apply label_events_structure).
    by rewrite Hlabels.
Qed.

Lemma label_loop_without_curves group cube ls answers label node nodes_rest w w1 :
  ls !! length answers = Some label →
  Forall (λ l, length (curve_surfaces l) = length (text_curves l)) answers →
  steps host w
    (concat (zip_with (label_events group cube) ls answers)
     ++ [Ev (cmds textCurves []
               [("f", VStr "Arial Black Bold"); ("t", VStr label.1.1)])
            (inr (node :: nodes_rest));
         Ev (cmds listRelatives [VStr node] []) (inr None)]) w1 →
  for_each ls (label_turn host group cube) w
  = (Raised (Exc TypeError "'NoneType' object is not iterable"), w1,
     concat (zip_with (label_events group cube) ls answers)
     ++ [Ev (cmds textCurves []
               [("f", VStr "Arial Black Bold"); ("t", VStr label.1.1)])
            (inr (node :: nodes_rest));
         Ev (cmds listRelatives [VStr node] []) (inr None)]).
Proof.
  revert answers w. induction ls as [|l ls IH]; intros [|a answers] w Hl Hall;
    try done.
  - injection Hl as ->. destruct label as [[text position] name].
    intros (H1 & H2 & ->). cbn [for_each]. rewrite bind_run.
    unfold label_turn. run_call H1. rewrite getitem_cons, bind_lift.
    run_call H2. simpl. reflexivity.
  - change (concat (zip_with (label_events group cube) (l :: ls) (a :: answers)))
      with (label_events group cube l a
            ++ concat (zip_with (label_events group cube) ls answers)).
    rewrite <-app_assoc. cbn [for_each].
    intros Hs. apply Forall_cons in Hall as [Hfit Hall].
    apply steps_app_inv in Hs as (w2 & Hturn & Hs).
    rewrite (bind_Returned_run _ _ _ _ _ _ (label_turn_answered _ _ _ _ _ _ Hfit Hturn)).
    by rewrite (IH _ _ Hl Hall Hs).
Qed.

(** X9.  A text without curves.  When, for one of the labels,
    [listRelatives] answers [None] for the node [textCurves] made, the loop over its curves
    is a [TypeError]: [Lab_coordinates_system_representation] raises it right
    after that answer and calls the host no more.  Nothing is undone: the
    labels made before that one are parented to the group, and they are the
    only nodes parented. *)
Theorem Lab_coordinates_system_representation_without_curves
    a label node nodes_rest w w1 :
  axis_labels !! length (labels a) = Some label →
  Forall (λ l, length (curve_surfaces l) = length (text_curves l)) (labels a) →
  steps host w (grid_until_curves_events a label.1.1 node nodes_rest) w1 →
  Lab_coordinates_system_representation host w
  = (Raised (Exc TypeError "'NoneType' object is not iterable"), w1,
     grid_until_curves_events a label.1.1 node nodes_rest)
  ∧ nodes_parented (grid_until_curves_events a label.1.1 node nodes_rest)
    = (λ l, (label_node l, group_node a)) <$> labels a.
Proof.
  intros Hl Hall Hs. split.
  - unfold grid_until_curves_events, grid_setup_events, grid_label_events in *.
    rewrite <-!app_assoc in Hs.
    apply steps_app_inv in Hs as (w2 & (H1 & H2 & ->) & Hs).
    apply steps_app_inv in Hs as (w3 & Hset & Hs).
    apply steps_app_inv in Hs as (w4 & (H3 & H4 & H5 & H6 & ->) & Hloop).
    rewrite Lab_coordinates_system_representation_turns.
    run_call H1. run_call H2. rewrite getitem_cons, bind_lift.
    rewrite (bind_Returned_run _ _ _ _ _ _ (set_attributes_answered _ _ _ Hset)).
    run_call H3. run_call H4. run_call H5. run_call H6.
    rewrite (bind_Raised_run _ _ _ _ _ _
               (label_loop_without_curves _ _ _ _ _ _ _ _ _ Hl Hall Hloop)).
    simpl. by rewrite <-?app_assoc.
  - unfold grid_until_curves_events, grid_setup_events, grid_label_events.
    rewrite !nodes_parented_app.
    unfold nodes_parented at 2. rewrite omap_fmap_nothing by done.
    unfold nodes_parented at 3.
    rewrite (omap_concat_zip_with _ _ (λ label l, [(label_node l, group_node a)]))
      by (intros; apply label_events_structure).
    assert (∀ (xs : list (string * (Z * Z) * string)) ys,
              length ys < length xs →
              concat (zip_with (λ _ l, [(label_node l, group_node a)]) xs ys)
              = (λ l, (label_node l, group_node a)) <$> ys) as Hlabels.
    { induction xs as [|x xs IH]; intros [|y ys] Hlen; simpl in *;
        try done; try lia.
      f_equal. apply IH. lia. }
    rewrite Hlabels by (by apply lookup_lt_Some in Hl).
    simpl. by rewrite app_nil_r.
Qed.

(** ** The names of the cube *)

Lemma colour_loop_sets_no_attribute pa ca ia start reads :
  attributes_set (concat (zip_with (colour_events pa ca ia)
                            (seq start (length reads)) reads)) = []
  ∧ renames_asked (concat (zip_with (colour_events pa ca ia)
                             (seq start (length reads)) reads)) = [].
Proof.
  revert start. induction reads as [|[[p0 p1] p2] reads IH]; intros start; [done|].
  simpl. apply IH.
Qed.

Lemma renames_asked_setAttr_events (entries : list (string * value)) :
  renames_asked (setAttr_event <$> entries) = [].
Proof. by apply omap_fmap_nothing. Qed.

Lemma deform_loop_renames_nothing it visits :
  renames_asked (concat (deform_events it <$> visits)) = [].
Proof.
  induction visits as [|v visits IH]; [done|].
  change (concat (deform_events it <$> v :: visits))
    with (deform_events it v ++ concat (deform_events it <$> visits)).
  rewrite renames_asked_app, IH. by destruct v as [p [[l a] b] q].
Qed.

(** X10.  The two names of the cube.  A returning run of
    [Lab_colourspace_cube] starts with [polyCube], and the first name of its
    answer is the one under which the translation and [displayColors] are
    set and on which [rename] is asked, once, for [colourspace.name].  The
    name the host answers to the rename, which need not be the name asked,
    is the value returned and the name under which the rotation is set.
    These six attributes are all the run sets, in this order. *)
Theorem Lab_colourspace_cube_names fuel colourspace density w v w1 t :
  Lab_colourspace_cube' fuel colourspace density w = (Returned v, w1, t) →
  ∃ cube cubes_rest,
    head t
    = Some (Ev (cmds polyCube []
                  [("w", VInt 1); ("h", VInt 1); ("d", VInt 1);
                   ("sx", VInt density); ("sy", VInt density);
                   ("sz", VInt density); ("ch", VBool false)])
               (inr (cube :: cubes_rest)))
    ∧ renames_asked t = [(cube, name colourspace)]
    ∧ Ev (cmds rename [VStr cube; VStr (name colourspace)] []) (inr v) ∈ t
    ∧ attributes_set t
      = [(fmt_attr cube "translateX", VFloat 0.5);
         (fmt_attr cube "translateY", VFloat 0.5);
         (fmt_attr cube "translateZ", VFloat 0.5);
         (fmt_attr cube "displayColors", VBool true);
         (fmt_attr v "rotateX", VInt 180);
         (fmt_attr v "rotateZ", VInt 90)].
Proof.
  intros (a & sl & dp & it & visits & -> & _ & _ & ->)%Lab_colourspace_cube_Returned.
  exists (poly_cube a), (poly_cubes_rest a).
  unfold RGB_identity_cube_events, cube_setup_events, cube_colour_events,
    cube_finish_events, deform_cube_events.
  split_and!.
  - done.
  - rewrite !renames_asked_app.
    rewrite (proj2 (colour_loop_sets_no_attribute _ _ _ _ _)).
    rewrite deform_loop_renames_nothing.
    rewrite !renames_asked_setAttr_events. done.
  - rewrite !elem_of_app. left. right. right. simpl.
    rewrite !elem_of_cons. auto.
  - rewrite !attributes_set_app.
    rewrite (proj1 (colour_loop_sets_no_attribute _ _ _ _ _)).
    rewrite deform_loop_sets_no_attribute, !attributes_set_setAttr_events.
    simpl. rewrite cube_translation_entries, cube_rotation_entries.
    by rewrite !app_nil_r.
Qed.

End PlotsFacts.

(** ** What [RGB_to_Lab] reads *)

Section Reads.
Context {World : Type}.


End Reads.

(** ** Module load *)

Section LoadFacts.
Context {Obj : Type}.
Variable import_module : string → result Obj.
Variable import_from : string → string → result Obj.

Abbreviation import_guard' := (import_guard import_module).
Abbreviation load_module' := (load_module import_module import_from).

(** What the guarded import does, by what the two imports answer. *)
Lemma import_guard_run ns :
  import_guard' ns =
    match import_module "maya.cmds" with
    | inl e => (if issubclass (exc_cls e) ImportError then None else Some e, ns)
    | inr cmds_module =>
        match import_module "maya.OpenMaya" with
        | inl e =>
            (if issubclass (exc_cls e) ImportError then None else Some e,
             <["cmds" := cmds_module]> ns)
        | inr OpenMaya => (None, <["OpenMaya" := OpenMaya]> (<["cmds" := cmds_module]> ns))
        end
    end.
Proof.
  unfold import_guard, try_except, seq_stmt, import_as, pass.
  destruct (import_module "maya.cmds") as [e|cmds_module].
  - by destruct (issubclass (exc_cls e) ImportError).
  - destruct (import_module "maya.OpenMaya") as [e|om]; [|done].
    by destruct (issubclass (exc_cls e) ImportError).
Qed.

(** C5, as the code has it.  The import of the host API is guarded by
    [except ImportError]: when [import maya.cmds] or [import maya.OpenMaya]
    raises an [ImportError] (or an exception of a subclass, as when the host
    API is absent), the exception is discarded, the statement ends normally
    and the name whose import failed stays unbound; with the other imports of
    the module succeeding, so does the load of the module.  An exception of
    another class, raised by either of the two imports, is not discarded: it
    is the outcome of the guarded statement and of the load of the module,
    which binds no further name. *)
Theorem import_guard_discards_ImportError ns :
  (∀ e, import_module "maya.cmds" = inl e →
        issubclass (exc_cls e) ImportError = true →
        import_guard' ns = (None, ns))
  ∧ (∀ cmds_module e, import_module "maya.cmds" = inr cmds_module →
        import_module "maya.OpenMaya" = inl e →
        issubclass (exc_cls e) ImportError = true →
        import_guard' ns = (None, <["cmds" := cmds_module]> ns))
  ∧ (∀ e, import_module "maya.cmds" = inl e →
        issubclass (exc_cls e) ImportError = false →
        import_guard' ns = (Some e, ns))
  ∧ (∀ e np f g h, import_module "maya.cmds" = inl e →
        issubclass (exc_cls e) ImportError = true →
        import_module "numpy" = inr np →
        import_from "colour.models" "RGB_to_XYZ" = inr f →
        import_from "colour.models" "XYZ_to_Lab" = inr g →
        import_from "colour.colorimetry" "ILLUMINANTS" = inr h →
        ∃ globals,
          load_module' ∅ = (None, globals)
          ∧ globals !! "cmds" = None
          ∧ globals !! "OpenMaya" = None
          ∧ globals !! "RGB_to_XYZ" = Some f
          ∧ globals !! "XYZ_to_Lab" = Some g
          ∧ globals !! "ILLUMINANTS" = Some h)
  ∧ (∀ cmds_module e np f g h, import_module "maya.cmds" = inr cmds_module →
        import_module "maya.OpenMaya" = inl e →
        issubclass (exc_cls e) ImportError = true →
        import_module "numpy" = inr np →
        import_from "colour.models" "RGB_to_XYZ" = inr f →
        import_from "colour.models" "XYZ_to_Lab" = inr g →
        import_from "colour.colorimetry" "ILLUMINANTS" = inr h →
        ∃ globals,
          load_module' ∅ = (None, globals)
          ∧ globals !! "cmds" = Some cmds_module
          ∧ globals !! "OpenMaya" = None
          ∧ globals !! "RGB_to_XYZ" = Some f
          ∧ globals !! "XYZ_to_Lab" = Some g
          ∧ globals !! "ILLUMINANTS" = Some h)
  ∧ (∀ cmds_module e, import_module "maya.cmds" = inr cmds_module →
        import_module "maya.OpenMaya" = inl e →
        issubclass (exc_cls e) ImportError = false →
        import_guard' ns = (Some e, <["cmds" := cmds_module]> ns))
  ∧ (∀ np e, import_module "numpy" = inr np →
        import_module "maya.cmds" = inl e →
        issubclass (exc_cls e) ImportError = false →
        load_module' ∅ = (Some e, <["np" := np]> ∅))
  ∧ (∀ np cmds_module e, import_module "numpy" = inr np →
        import_module "maya.cmds" = inr cmds_module →
        import_module "maya.OpenMaya" = inl e →
        issubclass (exc_cls e) ImportError = false →
        load_module' ∅ = (Some e, <["cmds" := cmds_module]> (<["np" := np]> ∅))).
Proof.
  split_and!.
  - intros e He Hsub. by rewrite import_guard_run, He, Hsub.
  - intros cmds_module e Hc He Hsub. by rewrite import_guard_run, Hc, He, Hsub.
  - intros e He Hsub. by rewrite import_guard_run, He, Hsub.
  - intros e np f g h He Hsub Hnp Hf Hg Hh.
    eexists. split.
    + unfold load_module, seq_stmt at 1. unfold import_as at 1. rewrite Hnp.
      unfold seq_stmt at 1. rewrite import_guard_run, He, Hsub.
      unfold seq_stmt, from_import. rewrite Hf, Hg, Hh. reflexivity.
    + by simplify_map_eq.
  - intros cmds_module e np f g h Hc He Hsub Hnp Hf Hg Hh.
    eexists. split.
    + unfold load_module, seq_stmt at 1. unfold import_as at 1. rewrite Hnp.
      unfold seq_stmt at 1. rewrite import_guard_run, Hc, He, Hsub.
      unfold seq_stmt, from_import. rewrite Hf, Hg, Hh. reflexivity.
    + by simplify_map_eq.
  - intros cmds_module e Hc He Hsub. by rewrite import_guard_run, Hc, He, Hsub.
  - intros np e Hnp He Hsub.
    unfold load_module, seq_stmt at 1. unfold import_as at 1. rewrite Hnp.
    unfold seq_stmt at 1. by rewrite import_guard_run, He, Hsub.
  - intros np cmds_module e Hnp Hc He Hsub.
    unfold load_module, seq_stmt at 1. unfold import_as at 1. rewrite Hnp.
    unfold seq_stmt at 1. by rewrite import_guard_run, Hc, He, Hsub.
Qed.

(** X11.  The imports outside the guard.  [numpy] and the colour library
    are imported without a guard: an exception of their import, an [ImportError]
    included, ends the load of the module.  A failure of [numpy] leaves
    nothing bound; a failure of the colour library comes after the guarded
    import and leaves what was bound before it.  When every import succeeds
    the six names are bound to what the imports answered. *)
Theorem load_module_unguarded_imports :
  (∀ e, import_module "numpy" = inl e →
        load_module import_module import_from ∅ = (Some e, ∅))
  ∧ (∀ np e globals,
       import_module "numpy" = inr np →
       import_guard import_module (<["np" := np]> ∅) = (None, globals) →
       import_from "colour.models" "RGB_to_XYZ" = inl e →
       load_module import_module import_from ∅ = (Some e, globals))
  ∧ (∀ np cmds_module OpenMaya f g h,
       import_module "numpy" = inr np →
       import_module "maya.cmds" = inr cmds_module →
       import_module "maya.OpenMaya" = inr OpenMaya →
       import_from "colour.models" "RGB_to_XYZ" = inr f →
       import_from "colour.models" "XYZ_to_Lab" = inr g →
       import_from "colour.colorimetry" "ILLUMINANTS" = inr h →
       ∃ globals,
         load_module import_module import_from ∅ = (None, globals)
         ∧ dom globals = {["np"; "cmds"; "OpenMaya"; "RGB_to_XYZ"; "XYZ_to_Lab";
                           "ILLUMINANTS"]}
         ∧ globals !! "np" = Some np
         ∧ globals !! "cmds" = Some cmds_module
         ∧ globals !! "OpenMaya" = Some OpenMaya
         ∧ globals !! "RGB_to_XYZ" = Some f
         ∧ globals !! "XYZ_to_Lab" = Some g
         ∧ globals !! "ILLUMINANTS" = Some h).
Proof.
  split_and!.
  - intros e He. unfold load_module, seq_stmt at 1. unfold import_as at 1.
    by rewrite He.
  - intros np e globals Hnp Hguard He.
    unfold load_module, seq_stmt at 1. unfold import_as at 1. rewrite Hnp.
    unfold seq_stmt at 1. rewrite Hguard.
    unfold seq_stmt at 1. unfold from_import at 1. by rewrite He.
  - intros np cmds_module OpenMaya f g h Hnp Hc Ho Hf Hg Hh.
    eexists. split.
    + unfold load_module, seq_stmt at 1. unfold import_as at 1. rewrite Hnp.
      unfold seq_stmt at 1. rewrite import_guard_run, Hc, Ho.
      unfold seq_stmt, from_import. rewrite Hf, Hg, Hh. reflexivity.
    + split; [|by simplify_map_eq]. rewrite !dom_insert_L, dom_empty_L.
      set_solver.
Qed.

End LoadFacts.

(** * The theorems at work on the small host *)

(** With the stand-in transforms, [(1, 0.5, 0.25)] is reversed, then rotated. *)
Lemma RGB_to_Lab_composition_witness :
  Demo.ILLUMINANTS !! "CIE 1931 2 Degree Standard Observer"
  = Some {[ "E" := (0.5, 0.25)%float ]}
  ∧ RGB_to_Lab Demo.RGB_to_XYZ Demo.XYZ_to_Lab Demo.ILLUMINANTS
      [1; 0.5; 0.25]%float (Demo.colourspace "sRGB")
    = inr (NdArray [3; 1] [0.5; 1; 0.25]%float).
Proof.
  assert (Demo.ILLUMINANTS !! "CIE 1931 2 Degree Standard Observer"
          = Some {[ "E" := (0.5, 0.25)%float ]}) as Hobs
    by (vm_compute; reflexivity).
  split; [exact Hobs|].
  rewrite (RGB_to_Lab_composition Demo.RGB_to_XYZ Demo.XYZ_to_Lab Demo.ILLUMINANTS
             [1; 0.5; 0.25]%float (Demo.colourspace "sRGB") _ Hobs).
  reflexivity.
Defined.



(** The rotation of a cube, on the host that accepts every call: [rotateX]
    is set first, [rotateZ] second. *)
Lemma set_attributes_one_call_per_entry_witness :
  ∃ w1 t,
    set_attributes Demo.sound (cube_rotation "sRGB") Demo.start = (Returned true, w1, t)
    ∧ t = setAttr_event <$> items (cube_rotation "sRGB")
    ∧ length t = length (keys (cube_rotation "sRGB"))
    ∧ NoDup t
    ∧ (∀ a v, setAttr_event (a, v) ∈ t ↔ get (cube_rotation "sRGB") a = Some v)
    ∧ (NoDup [("sRGB.rotateX", VInt 180); ("sRGB.rotateZ", VInt 90)].*1 →
       t = setAttr_event
             <$> [("sRGB.rotateX", VInt 180); ("sRGB.rotateZ", VInt 90)])
    ∧ ([("sRGB.rotateX", VInt 180); ("sRGB.rotateZ", VInt 90)] = [] →
       t = [] ∧ w1 = Demo.start).
Proof.
  apply (set_attributes_one_call_per_entry Demo.sound
           [("sRGB.rotateX", VInt 180); ("sRGB.rotateZ", VInt 90)] Demo.start).
  intros a v w0 _. reflexivity.
Defined.

(** The host refuses [translateY], the second entry of the mapping:
    [translateX] stays set, [translateZ] is never tried. *)
Lemma host_failure_aborts_witness :
  set_attributes (Demo.refusing "pCube1.translateY") (cube_translation "pCube1")
    Demo.start
  = (Raised Demo.failure, Demo.start,
     [setAttr_event ("pCube1.translateX", VFloat 0.5);
      Ev (setAttr_call ("pCube1.translateY", VFloat 0.5)) (inl Demo.failure)])
  ∧ steps (Demo.refusing "pCube1.translateY") Demo.start
      [setAttr_event ("pCube1.translateX", VFloat 0.5);
       Ev (setAttr_call ("pCube1.translateY", VFloat 0.5)) (inl Demo.failure)]
      Demo.start
  ∧ aborts_on_failure (Raised Demo.failure : outcome bool)
      [setAttr_event ("pCube1.translateX", VFloat 0.5);
       Ev (setAttr_call ("pCube1.translateY", VFloat 0.5)) (inl Demo.failure)]
  ∧ [setAttr_call ("pCube1.translateX", VFloat 0.5);
     setAttr_call ("pCube1.translateY", VFloat 0.5)]
    = take 2 (setAttr_call <$> items (cube_translation "pCube1")).
Proof.
  assert (set_attributes (Demo.refusing "pCube1.translateY")
            (cube_translation "pCube1") Demo.start
          = (Raised Demo.failure, Demo.start,
             [setAttr_event ("pCube1.translateX", VFloat 0.5);
              Ev (setAttr_call ("pCube1.translateY", VFloat 0.5))
                (inl Demo.failure)])) as Hrun
    by (vm_compute; reflexivity).
  split; [exact Hrun|].
  exact (proj1 (host_failure_aborts (Demo.refusing "pCube1.translateY")
                  Demo.RGB_to_XYZ Demo.XYZ_to_Lab Demo.ILLUMINANTS)
           _ _ _ _ _ Hrun).
Defined.

(** An import of [maya.cmds] that raises a [RuntimeError] ends the load. *)
Lemma import_guard_keeps_RuntimeError :
  Demo.faulty_maya "maya.cmds"
  = inl (Exc RuntimeError "maya.cmds failed to initialise")
  ∧ import_guard Demo.faulty_maya ∅
    = (Some (Exc RuntimeError "maya.cmds failed to initialise"), ∅)
  ∧ (load_module Demo.faulty_maya Demo.attribute ∅).1
    = Some (Exc RuntimeError "maya.cmds failed to initialise").
Proof. split_and!; vm_compute; reflexivity. Qed.

(** Outside Maya the load succeeds and leaves [cmds] and [OpenMaya]
    unbound; an [OpenMaya] whose import raises a [RuntimeError] ends the load
    with [np] and [cmds] bound. *)
Lemma import_guard_discards_ImportError_witness :
  import_guard Demo.outside_maya ∅ = (None, ∅)
  ∧ (∃ globals,
      load_module Demo.outside_maya Demo.attribute ∅ = (None, globals)
      ∧ globals !! "cmds" = None
      ∧ globals !! "OpenMaya" = None
      ∧ globals !! "RGB_to_XYZ" = Some ()
      ∧ globals !! "XYZ_to_Lab" = Some ()
      ∧ globals !! "ILLUMINANTS" = Some ())
  ∧ import_guard Demo.faulty_OpenMaya ∅
    = (Some (Exc RuntimeError "maya.OpenMaya failed to initialise"),
       {[ "cmds" := () ]})
  ∧ load_module Demo.faulty_maya Demo.attribute ∅
    = (Some (Exc RuntimeError "maya.cmds failed to initialise"), {[ "np" := () ]})
  ∧ load_module Demo.faulty_OpenMaya Demo.attribute ∅
    = (Some (Exc RuntimeError "maya.OpenMaya failed to initialise"),
       <[ "cmds" := () ]> {[ "np" := () ]}).
Proof.
  pose proof (import_guard_discards_ImportError Demo.outside_maya Demo.attribute ∅)
    as (Hcmds & _ & _ & Hload & _).
  pose proof (import_guard_discards_ImportError Demo.faulty_OpenMaya Demo.attribute ∅)
    as (_ & _ & _ & _ & _ & Hguard & _ & Hload2).
  pose proof (import_guard_discards_ImportError Demo.faulty_maya Demo.attribute ∅)
    as (_ & _ & _ & _ & _ & _ & Hload1 & _).
  split_and!.
  - apply (Hcmds (Exc ModuleNotFoundError "No module named 'maya'")); reflexivity.
  - apply (Hload (Exc ModuleNotFoundError "No module named 'maya'") () () () ());
      reflexivity.
  - apply (Hguard () (Exc RuntimeError "maya.OpenMaya failed to initialise"));
      reflexivity.
  - apply (Hload1 () (Exc RuntimeError "maya.cmds failed to initialise"));
      reflexivity.
  - apply (Hload2 () () (Exc RuntimeError "maya.OpenMaya failed to initialise"));
      reflexivity.
Defined.

(** For a node without shapes the host answers [None], [get_shapes] [[]]. *)
Lemma get_shapes_replaces_None :
  (Demo.sound (listRelatives_shapes "pCube1" false true) Demo.shapeless).1
  = inr None
  ∧ (get_shapes Demo.sound "pCube1" false true Demo.shapeless).1.1 = Returned []
  ∧ names_value (Some []) ≠ names_value None.
Proof. split_and!; done. Qed.

(** The three queries in the two-vertex scene. *)
Lemma host_queries_pass_through_witness :
  get_dag_path Demo.sound "pCubeShape1" Demo.start
  = (Returned 1, Demo.Scene 2 [Demo.origin; Demo.corner] 0 (Some ["pCubeShape1"]),
     get_dag_path_events "pCubeShape1" 0 1)
  ∧ get_mpoint Demo.sound [Number 1; Number 0.5; Number 0.25; Number 0] Demo.start
    = (Returned Demo.corner, Demo.start,
       [Ev (MPoint_new 1 0.5 0.25) (inr Demo.corner)])
  ∧ get_shapes Demo.sound "pCube1" false true Demo.start
    = (Returned ["pCubeShape1"], Demo.start,
       [Ev (listRelatives_shapes "pCube1" false true) (inr (Some ["pCubeShape1"]))])
  ∧ get_shapes Demo.sound "pCube1" false true Demo.shapeless
    = (Returned [], Demo.shapeless,
       [Ev (listRelatives_shapes "pCube1" false true) (inr None)]).
Proof.
  destruct (host_queries_pass_through Demo.sound) as (Hdag & Hpoint & Hshapes).
  split_and!.
  - apply Hdag. by vm_compute.
  - by apply Hpoint.
  - by apply (Hshapes "pCube1" false true Demo.start (Some ["pCubeShape1"])).
  - by apply (Hshapes "pCube1" false true Demo.shapeless None).
Defined.

(** The node without shapes. *)
Lemma get_shapes_never_None_witness :
  Demo.sound (listRelatives_shapes "pCube1" false true) Demo.shapeless
  = (inr None, Demo.shapeless)
  ∧ ∃ object_shapes : list string,
      (get_shapes Demo.sound "pCube1" false true Demo.shapeless).1.1
      = Returned object_shapes
      ∧ names_value (Some object_shapes) ≠ VNone
      ∧ ((None : option (list string)) = None → object_shapes = [])
      ∧ (∀ l, None = Some l → object_shapes = l).
Proof.
  split; [reflexivity|].
  apply (get_shapes_never_None Demo.sound "pCube1" false true Demo.shapeless
           Demo.shapeless None).
  reflexivity.
Defined.

(** The Lab cube of the two-vertex scene starts with its identity cube. *)
Lemma Lab_colourspace_cube_calls_RGB_identity_cube_witness :
  Demo.cube_run.1.1 = Returned "sRGB"
  ∧ (Demo.Lab_run 3).1.1 = Returned "sRGB"
  ∧ (∃ o w2 t2,
       Demo.Lab_run 3 = (o, w2, Demo.cube_run.2 ++ t2)
       ∧ ∀ v, o = Returned v → v = "sRGB")
  ∧ ∃ a,
      Demo.cube_run.2 = RGB_identity_cube_events "sRGB" 20 a
      ∧ calls Demo.sound (RGB_identity_cube Demo.sound "sRGB" 20) Demo.start
          (set_attributes Demo.sound (cube_translation (poly_cube a))) true
      ∧ calls Demo.sound (RGB_identity_cube Demo.sound "sRGB" 20) Demo.start
          (get_shapes Demo.sound (poly_cube a) false true)
          (cube_shape a :: cube_shapes_rest a)
      ∧ calls Demo.sound (RGB_identity_cube Demo.sound "sRGB" 20) Demo.start
          (get_dag_path Demo.sound (cube_shape a)) (shape_path a).
Proof.
  pose proof (Lab_colourspace_cube_calls_RGB_identity_cube Demo.sound
                Demo.RGB_to_XYZ Demo.XYZ_to_Lab Demo.ILLUMINANTS
                3 (Demo.colourspace "sRGB") 20 Demo.start) as [Hfirst Hcalls].
  split_and!.
  - by vm_compute.
  - by vm_compute.
  - exact Hfirst.
  - apply (Hcalls "sRGB" "sRGB" Demo.cube_run.1.2 Demo.cube_run.2).
    by vm_compute.
Defined.

(** Two vertices, so three evaluations of the loop's condition: the second
    vertex [(1, 0.5, 0.25)] moves to [(0.5, 1, 0.25)]. *)
Lemma Lab_colourspace_cube_deforms_each_vertex_witness :
  (Demo.Lab_run 3).1.1 = Returned "sRGB"
  ∧ positions_set (Demo.Lab_run 3).2
    = [Demo.origin; {| mp_x := 0.5; mp_y := 1; mp_z := 0.25; mp_w := 1 |}]
  ∧ Demo.Lab_run 4 = Demo.Lab_run 3
  ∧ ∃ a selection_list dag_path it visits,
      "sRGB" = new_name a
      ∧ (Demo.Lab_run 3).2
        = RGB_identity_cube_events "sRGB" 20 a
          ++ deform_cube_events (new_name a) selection_list dag_path it visits
      ∧ Forall (λ v, Lab_of_position Demo.RGB_to_XYZ Demo.XYZ_to_Lab
                       Demo.ILLUMINANTS (Demo.colourspace "sRGB") (position v)
                     = inr (numbers (Lab v))) visits
      ∧ positions_set (Demo.Lab_run 3).2 = point <$> visits
      ∧ items (cube_rotation (new_name a))
        = [(fmt_attr (new_name a) "rotateX", VInt 180);
           (fmt_attr (new_name a) "rotateZ", VInt 90)]
      ∧ ∀ fuel', 3 ≤ fuel' →
          Demo.Lab_run fuel' = (Returned "sRGB", (Demo.Lab_run 3).1.2, (Demo.Lab_run 3).2).
Proof.
  split_and!.
  - by vm_compute.
  - by vm_compute.
  - by vm_compute.
  - apply (proj1 (Lab_colourspace_cube_deforms_each_vertex Demo.sound
                    Demo.RGB_to_XYZ Demo.XYZ_to_Lab Demo.ILLUMINANTS
                    3 (Demo.colourspace "sRGB") 20 Demo.start)
             "sRGB" (Demo.Lab_run 3).1.2 (Demo.Lab_run 3).2).
    by vm_compute.
Defined.

(** The two vertices get their own coordinates as colours. *)
Lemma RGB_identity_cube_colours_are_positions_witness :
  Demo.cube_run.1.1 = Returned "sRGB"
  ∧ colours_appended Demo.cube_run.2 = [(0, 0, 0); (1, 0.5, 0.25)]%float
  ∧ indices_appended Demo.cube_run.2 = [0; 1]
  ∧ ∃ a,
      Demo.cube_run.2 = RGB_identity_cube_events "sRGB" 20 a
      ∧ colours_appended Demo.cube_run.2
        = (λ '(p0, p1, p2), (mp_x p0, mp_y p1, mp_z p2)) <$> point_reads a
      ∧ indices_appended Demo.cube_run.2 = seq 0 (length (point_reads a))
      ∧ (∀ i p, point_reads a !! i = Some (p, p, p) →
           colours_appended Demo.cube_run.2 !! i = Some (mp_x p, mp_y p, mp_z p)
           ∧ indices_appended Demo.cube_run.2 !! i = Some i).
Proof.
  split_and!.
  - by vm_compute.
  - by vm_compute.
  - by vm_compute.
  - apply (proj1 (RGB_identity_cube_colours_are_positions Demo.sound "sRGB" 20
                    Demo.start)
             "sRGB" Demo.cube_run.1.2 Demo.cube_run.2).
    by vm_compute.
Defined.

(** A point of two components. *)
Lemma get_mpoint_short_point_witness :
  get_mpoint Demo.sound [Number 1; Number 0.5] Demo.start
  = (Raised (Exc IndexError "tuple index out of range"), Demo.start, []).
Proof.
  apply (get_mpoint_short_point Demo.sound [Number 1; Number 0.5] Demo.start).
  simpl. lia.
Defined.

(** A table without the observer, and a table whose observer has no [E]. *)
Lemma RGB_to_Lab_illuminant_lookup_witness :
  RGB_to_Lab Demo.RGB_to_XYZ Demo.XYZ_to_Lab ∅
    [1; 0.5; 0.25]%float (Demo.colourspace "sRGB")
  = inl (Exc AttributeError "'NoneType' object has no attribute 'get'")
  ∧ RGB_to_Lab Demo.RGB_to_XYZ Demo.XYZ_to_Lab
      {[ "CIE 1931 2 Degree Standard Observer" := {[ "D65" := (0.5, 0.25)%float ]} ]}
      [1; 0.5; 0.25]%float (Demo.colourspace "sRGB")
    = inr (NdArray [3; 1] [0.5; 1; 0.25]%float).
Proof.
  split.
  - apply (proj1 (RGB_to_Lab_illuminant_lookup Demo.RGB_to_XYZ Demo.XYZ_to_Lab ∅
                    [1; 0.5; 0.25]%float (Demo.colourspace "sRGB"))).
    reflexivity.
  - rewrite (proj2 (RGB_to_Lab_illuminant_lookup Demo.RGB_to_XYZ Demo.XYZ_to_Lab
                      {[ "CIE 1931 2 Degree Standard Observer"
                         := {[ "D65" := (0.5, 0.25)%float ]} ]}
                      [1; 0.5; 0.25]%float (Demo.colourspace "sRGB"))
               {[ "D65" := (0.5, 0.25)%float ]});
      [reflexivity | vm_compute; reflexivity | vm_compute; reflexivity].
Defined.

(** The cube of a scene whose nodes have no shape. *)
Lemma RGB_identity_cube_without_shapes_witness :
  RGB_identity_cube Demo.sound "sRGB" 20 Demo.shapeless
  = (Raised (Exc IndexError "list index out of range"),
     Demo.Scene 3 [Demo.origin; Demo.corner] 0 None,
     cube_shapes_events 20 "pCube1" [] 0 1 2 None).
Proof.
  apply (RGB_identity_cube_without_shapes Demo.sound "sRGB" 20 Demo.shapeless
           (Demo.Scene 3 [Demo.origin; Demo.corner] 0 None) "pCube1" [] 0 1 2 None).
  - reflexivity.
  - vm_compute. repeat split.
Defined.

(** The transform accepts the first vertex, black, and refuses the second:
    the first keeps the position written to it. *)
Lemma Lab_colourspace_cube_interrupted_witness :
  Lab_colourspace_cube Demo.sound Demo.black_only Demo.XYZ_to_Lab Demo.ILLUMINANTS 3
    (Demo.colourspace "sRGB") 20 Demo.start
  = (Raised (Exc ValueError "RGB out of range"),
     Demo.Scene 9 [Demo.origin; Demo.corner] 1 (Some ["pCubeShape1"]),
     RGB_identity_cube_events "sRGB" 20 Demo.cube_built
     ++ deform_until_events "sRGB" 6 7 8
          [Visit Demo.origin (0, 0, 0)%float Demo.origin] Demo.corner)
  ∧ positions_set
      (RGB_identity_cube_events "sRGB" 20 Demo.cube_built
       ++ deform_until_events "sRGB" 6 7 8
            [Visit Demo.origin (0, 0, 0)%float Demo.origin] Demo.corner)
    = [Demo.origin]
  ∧ attributes_set
      (deform_until_events "sRGB" 6 7 8
         [Visit Demo.origin (0, 0, 0)%float Demo.origin] Demo.corner)
    = [].
Proof.
  apply (Lab_colourspace_cube_interrupted Demo.sound Demo.black_only Demo.XYZ_to_Lab
           Demo.ILLUMINANTS 3 (Demo.colourspace "sRGB") 20 Demo.start
           (Demo.Scene 9 [Demo.origin; Demo.corner] 1 (Some ["pCubeShape1"]))
           Demo.cube_built 6 7 8
           [Visit Demo.origin (0, 0, 0)%float Demo.origin] Demo.corner
           (Exc ValueError "RGB out of range")).
  - simpl. lia.
  - repeat constructor.
  - reflexivity.
  - vm_compute. repeat split.
Defined.

(** The two vertices of the small scene. *)
Lemma Lab_colourspace_cube_writes_Lab_coordinates_witness :
  ∃ it visits,
    positions_set (Demo.Lab_run 3).2 = point <$> visits
    ∧ Forall (λ v,
        ∃ XYZ lab rest,
          Demo.RGB_to_XYZ
            (np_array [mp_x (position v); mp_y (position v); mp_z (position v)])
            (whitepoint (Demo.colourspace "sRGB"))
            (({[ "E" := (0.5, 0.25)%float ]} : gmap string xy) !! "E")
            (to_XYZ (Demo.colourspace "sRGB")) "Bradford"
            (inverse_transfer_function (Demo.colourspace "sRGB")) = inr XYZ
          ∧ Demo.XYZ_to_Lab XYZ (whitepoint (Demo.colourspace "sRGB")) = inr lab
          ∧ data lab = (Lab v).1.1 :: (Lab v).1.2 :: (Lab v).2 :: rest
          ∧ Ev (MItMeshVertex_position it kObject) (inr (position v)) ∈ (Demo.Lab_run 3).2
          ∧ Ev (MPoint_new (Lab v).1.1 (Lab v).1.2 (Lab v).2) (inr (point v))
            ∈ (Demo.Lab_run 3).2
          ∧ Ev (MItMeshVertex_setPosition it (point v)) (inr ()) ∈ (Demo.Lab_run 3).2)
        visits.
Proof.
  apply (Lab_colourspace_cube_writes_Lab_coordinates Demo.sound Demo.RGB_to_XYZ
           Demo.XYZ_to_Lab Demo.ILLUMINANTS 3 (Demo.colourspace "sRGB") 20 Demo.start
           "sRGB" (Demo.Lab_run 3).1.2 (Demo.Lab_run 3).2
           {[ "E" := (0.5, 0.25)%float ]}).
  - vm_compute. reflexivity.
  - vm_compute. reflexivity.
Defined.

(** The cube of the small scene, which the host renames as asked. *)
Lemma Lab_colourspace_cube_names_witness :
  ∃ cube cubes_rest,
    head (Demo.Lab_run 3).2
    = Some (Ev (cmds polyCube []
                  [("w", VInt 1); ("h", VInt 1); ("d", VInt 1);
                   ("sx", VInt 20); ("sy", VInt 20);
                   ("sz", VInt 20); ("ch", VBool false)])
               (inr (cube :: cubes_rest)))
    ∧ renames_asked (Demo.Lab_run 3).2 = [(cube, "sRGB")]
    ∧ Ev (cmds rename [VStr cube; VStr "sRGB"] []) (inr "sRGB") ∈ (Demo.Lab_run 3).2
    ∧ attributes_set (Demo.Lab_run 3).2
      = [(fmt_attr cube "translateX", VFloat 0.5);
         (fmt_attr cube "translateY", VFloat 0.5);
         (fmt_attr cube "translateZ", VFloat 0.5);
         (fmt_attr cube "displayColors", VBool true);
         (fmt_attr "sRGB" "rotateX", VInt 180);
         (fmt_attr "sRGB" "rotateZ", VInt 90)].
Proof.
  apply (Lab_colourspace_cube_names Demo.sound Demo.RGB_to_XYZ Demo.XYZ_to_Lab
           Demo.ILLUMINANTS 3 (Demo.colourspace "sRGB") 20 Demo.start
           "sRGB" (Demo.Lab_run 3).1.2 (Demo.Lab_run 3).2).
  vm_compute. reflexivity.
Defined.

(** The coordinates system, made in the small scene. *)
Lemma Lab_coordinates_system_representation_run_witness :
  Lab_coordinates_system_representation Demo.sound Demo.start
  = (Returned true, Demo.start,
     Lab_coordinates_system_representation_events
       (Demo.grid_made ["minus_a"; "plus_a"; "minus_b"; "plus_b"])).
Proof.
  apply (proj2 (Lab_coordinates_system_representation_run Demo.sound Demo.start)).
  - split; [reflexivity | repeat constructor].
  - vm_compute. repeat split.
Defined.

(** The thirty-two attributes of that run. *)
Lemma Lab_coordinates_system_representation_attributes_witness :
  ∃ a l1 l2 l3 l4,
    Demo.grid_run.2 = Lab_coordinates_system_representation_events a
    ∧ labels a = [l1; l2; l3; l4]
    ∧ attributes_set Demo.grid_run.2
      = grid_entries (grid_cube a)
        ++ label_entries (label_mesh l1) (-350, 0)%Z
        ++ label_entries (label_mesh l2) (350, 0)%Z
        ++ label_entries (label_mesh l3) (0, 350)%Z
        ++ label_entries (label_mesh l4) (0, -350)%Z
    ∧ length (attributes_set Demo.grid_run.2) = 32
    ∧ ∀ mesh position,
        get (label_attributes mesh position) (fmt_attr mesh "scaleY")
        = Some (VInt 50)
        ∧ get (label_attributes mesh position) (fmt_attr mesh "scaleZ") = None.
Proof.
  apply (Lab_coordinates_system_representation_attributes Demo.sound Demo.start
           true Demo.start Demo.grid_run.2).
  vm_compute. reflexivity.
Defined.

(** The renames and the parents of that run. *)
Lemma Lab_coordinates_system_representation_nodes_witness :
  ∃ a l1 l2 l3 l4,
    Demo.grid_run.2 = Lab_coordinates_system_representation_events a
    ∧ labels a = [l1; l2; l3; l4]
    ∧ renames_asked Demo.grid_run.2
      = [(label_mesh l1, "minus_a"); (label_mesh l2, "plus_a");
         (label_mesh l3, "minus_b"); (label_mesh l4, "plus_b");
         (grid_cube a, "grid");
         (group_node a, "Lab_coordinates_system_representation")]
    ∧ nodes_parented Demo.grid_run.2
      = [(label_node l1, group_node a); (label_node l2, group_node a);
         (label_node l3, group_node a); (label_node l4, group_node a);
         (grid_node a, group_node a)].
Proof.
  apply (Lab_coordinates_system_representation_nodes Demo.sound Demo.start
           true Demo.start Demo.grid_run.2).
  vm_compute. reflexivity.
Defined.

(** In the scene whose nodes have no children the first text has no curves. *)
Lemma Lab_coordinates_system_representation_without_curves_witness :
  Lab_coordinates_system_representation Demo.sound Demo.shapeless
  = (Raised (Exc TypeError "'NoneType' object is not iterable"), Demo.shapeless,
     grid_until_curves_events (Demo.grid_made []) "-a*" "Text_1" [])
  ∧ nodes_parented (grid_until_curves_events (Demo.grid_made []) "-a*" "Text_1" [])
    = [].
Proof.
  apply (Lab_coordinates_system_representation_without_curves Demo.sound
           (Demo.grid_made []) ("-a*", (-350, 0)%Z, "minus_a") "Text_1" []
           Demo.shapeless Demo.shapeless).
  - reflexivity.
  - constructor.
  - vm_compute. repeat split.
Defined.

(** Without numpy nothing is bound; outside Maya and without the colour
    library the load fails although the guard passed; inside Maya with
    everything installed the six names are bound. *)
Lemma load_module_unguarded_imports_witness :
  load_module Demo.without_numpy Demo.attribute ∅
  = (Some (Exc ModuleNotFoundError "No module named 'numpy'"), ∅)
  ∧ load_module Demo.outside_maya Demo.without_colour ∅
    = (Some (Exc ModuleNotFoundError "No module named 'colour'"), {[ "np" := () ]})
  ∧ ∃ globals,
      load_module Demo.inside_maya Demo.attribute ∅ = (None, globals)
      ∧ dom globals = {[ "np"; "cmds"; "OpenMaya"; "RGB_to_XYZ"; "XYZ_to_Lab";
                        "ILLUMINANTS" ]}
      ∧ globals !! "np" = Some ()
      ∧ globals !! "cmds" = Some ()
      ∧ globals !! "OpenMaya" = Some ()
      ∧ globals !! "RGB_to_XYZ" = Some ()
      ∧ globals !! "XYZ_to_Lab" = Some ()
      ∧ globals !! "ILLUMINANTS" = Some ().
Proof.
  split_and!.
  - apply (proj1 (load_module_unguarded_imports Demo.without_numpy Demo.attribute)).
    reflexivity.
  - apply (proj1 (proj2 (load_module_unguarded_imports Demo.outside_maya
                           Demo.without_colour)) ());
      [reflexivity | vm_compute; reflexivity | reflexivity].
  - apply (proj2 (proj2 (load_module_unguarded_imports Demo.inside_maya
                           Demo.attribute)) () () () () () ());
      reflexivity.
Defined.
